(** * Session lifecycle of the WhatsApp gateway

    The repository ships four builds of the same HTTP gateway:
    - [WWeb]     : server.js, first build (whatsapp-web.js, with the PHP
                   notification and the logout-first [cleanup]);
    - [WWebOld]  : the unnamed source, first build (whatsapp-web.js, logout in
                   the disconnect route, plain [cleanup]);
    - [Baileys]  : the Baileys builds of server.js ([ServerJs]) and of the
                   unnamed source ([Part000]); they differ in how a closed
                   connection is retried.

    Every handler is embedded as a function on an explicit state: the three
    process-wide [Map]s, the heap of transport objects (so that aliasing of a
    client between the registry and its event closures is kept), and a trace
    of the calls made to the outside world.  An [await] is a point where other
    handlers may run: code between two awaits is one atomic step.

    [Gateway] puts every route of server.js's first build into one system,
    with the steps that [WWeb] takes in one piece split where the code
    suspends or where the library acts on its own. *)

From stdpp Require Import base strings gmap list.
From Stdlib Require Import ZArith Lia Ascii.

Open Scope string_scope.
Open Scope list_scope.

(** ** Values shared by all builds *)

(** A transport object (a [Client] or a Baileys socket) is named by the
    order in which it was constructed. *)
Abbreviation handle := nat.

(** [!v] of JavaScript for a field that is either missing or a string. *)
Definition js_truthy (v : option string) : bool :=
  match v with
  | None => false
  | Some EmptyString => false
  | Some (String _ _) => true
  end.

(** [String(v)] for such a field. *)
Definition js_String (v : option string) : string :=
  match v with
  | None => "undefined"
  | Some s => s
  end.

(** [s || null] for a string. *)
Definition or_null (s : string) : option string :=
  match s with
  | EmptyString => None
  | String _ _ => Some s
  end.

Definition is_digit (c : ascii) : bool :=
  let n := nat_of_ascii c in (48 <=? n)%nat && (n <=? 57)%nat.

(** [s.replace(/\D/g, '')] *)
Fixpoint strip_non_digits (s : string) : string :=
  match s with
  | EmptyString => EmptyString
  | String c r =>
      if is_digit c then String c (strip_non_digits r) else strip_non_digits r
  end.

(** [s.split(sep)[0]] for a one-character separator. *)
Fixpoint before_char (sep : ascii) (s : string) : string :=
  match s with
  | EmptyString => EmptyString
  | String c r => if Ascii.eqb c sep then EmptyString else String c (before_char sep r)
  end.

(** The value of the [connectionStatus] map.  [authenticating] is the
    optional field that only server.js's first build writes; a missing field
    reads as [false] there ([status.authenticating || false]). *)
Record status := mkStatus {
  connected : bool;
  phone : option string;
  authenticating : bool;
}.

(** [{ connected: false, phone: null }] *)
Definition default_status : status := mkStatus false None false.

(** Lines written to the console that the properties below refer to. *)
Inductive log_line :=
| LogQrGenerated (id : string)
| LogQrError
| LogLoggedOut (id : string)
| LogLogoutFailed (id : string)
| LogSessionFilesDeleted (id : string)
| LogSessionFilesLocked (id : string)
| LogDisconnectRequested (id : string)
| LogReconnecting (id : string).

(** Calls that leave the handler, in the order they are made. *)
Inductive effect :=
| ENewTransport (h : handle) (id : string)   (* new Client(..) / makeWASocket(..) *)
| EInitialize (h : handle)                   (* client.initialize() *)
| ELogout (h : handle)                       (* client.logout() / sock.logout() *)
| EDestroy (h : handle)                      (* client.destroy() *)
| ESleep (ms : Z)                            (* await new Promise(r => setTimeout(r, ms)) *)
| ESendMessage (h : handle) (jid msg : string)
| ERender (qr : string)                      (* QRCode.toDataURL(qr) *)
| EUnregister (id : string)                  (* the three Map updates of cleanup *)
| ERmSync (id : string)                      (* fs.rmSync(session directory) *)
| ENotify (id : string) (st : string) (ph : option string) (* fetch(PHP_API_URL..) *)
| ESetTimeout (ms : Z) (id : string)         (* setTimeout(() => startSession(id), ms) *)
| ELog (l : log_line).

(** JSON bodies sent by the routes. *)
Inductive body :=
| BError (msg : string)
| BConnected (ph : option string)   (* { success, connected: true, phone } *)
| BMessage (msg : string)           (* { success, message } *)
| BStatus (qr : option string) (conn auth : bool) (ph : option string)
| BSuccess.                         (* { success: true } *)

Record response := mkResponse { code : Z; payload : body }.

Definition ok_json (b : body) : response := mkResponse 200 b.
Definition bad_request (msg : string) : response := mkResponse 400 (BError msg).
Definition server_error (msg : string) : response := mkResponse 500 (BError msg).

Definition is_logout (e : effect) : bool :=
  match e with ELogout _ => true | _ => false end.
Definition is_destroy (e : effect) : bool :=
  match e with EDestroy _ => true | _ => false end.
Definition is_new_transport (e : effect) : bool :=
  match e with ENewTransport _ _ => true | _ => false end.
Definition is_send (e : effect) : bool :=
  match e with ESendMessage _ _ _ => true | _ => false end.
Definition is_notify (e : effect) : bool :=
  match e with ENotify _ _ _ => true | _ => false end.
Definition is_rm (e : effect) : bool :=
  match e with ERmSync _ => true | _ => false end.
Definition is_timer (e : effect) : bool :=
  match e with ESetTimeout _ _ => true | _ => false end.

Definition count (p : effect -> bool) (t : list effect) : nat :=
  length (List.filter p t).

(** ** server.js, whatsapp-web.js build *)
Module WWeb.

(** A [Client] object: the account its handlers were closed over, and
    [client.info] ([info.wid.user]), which the library sets when the session
    is ready. *)
Record client := mkClient {
  owner : string;
  info : option string;
}.

Record state := mkState {
  whatsappClients : gmap string handle;
  qrCodes : gmap string string;
  connectionStatus : gmap string status;
  objects : list client;
  sessionDirs : gset string;     (* .wwebjs_auth/session-<id> present on disk *)
  trace : list effect;
}.

Definition init : state := mkState ∅ ∅ ∅ [] ∅ [].

Definition emit (es : list effect) (st : state) : state :=
  mkState (whatsappClients st) (qrCodes st) (connectionStatus st)
          (objects st) (sessionDirs st) (trace st ++ es).

Definition set_client (id : string) (h : handle) (st : state) : state :=
  mkState (<[id:=h]> (whatsappClients st)) (qrCodes st) (connectionStatus st)
          (objects st) (sessionDirs st) (trace st).

Definition set_status (id : string) (s : status) (st : state) : state :=
  mkState (whatsappClients st) (qrCodes st) (<[id:=s]> (connectionStatus st))
          (objects st) (sessionDirs st) (trace st).

Definition set_qr (id : string) (url : string) (st : state) : state :=
  mkState (whatsappClients st) (<[id:=url]> (qrCodes st)) (connectionStatus st)
          (objects st) (sessionDirs st) (trace st).

Definition delete_qr (id : string) (st : state) : state :=
  mkState (whatsappClients st) (delete id (qrCodes st)) (connectionStatus st)
          (objects st) (sessionDirs st) (trace st).

Definition delete_client (id : string) (st : state) : state :=
  mkState (delete id (whatsappClients st)) (qrCodes st) (connectionStatus st)
          (objects st) (sessionDirs st) (trace st).

Definition alloc (c : client) (st : state) : state :=
  mkState (whatsappClients st) (qrCodes st) (connectionStatus st)
          (objects st ++ [c]) (sessionDirs st) (trace st).

Definition set_info (h : handle) (i : option string) (st : state) : state :=
  mkState (whatsappClients st) (qrCodes st) (connectionStatus st)
          (alter (fun c => mkClient (owner c) i) h (objects st))
          (sessionDirs st) (trace st).

Definition set_dirs (d : gset string) (st : state) : state :=
  mkState (whatsappClients st) (qrCodes st) (connectionStatus st)
          (objects st) d (trace st).

(** [whatsappClients.get(id)] followed by [.info] on the object found. *)
Definition client_info (id : string) (st : state) : option string :=
  h ← whatsappClients st !! id; objects st !! h ≫= info.

(** notifyPhpBackend(accountId, status, phone): the request is issued at the
    call; its failure is caught inside and only logged. *)
Definition notifyPhpBackend (id : string) (s : string) (ph : option string)
    (st : state) : state :=
  emit [ENotify id s ph] st.

(** POST /api/whatsapp/connect, when the constructor of the client returns;
    [Gateway.connect_throws] is the route when it throws. *)
Definition connect (account_id : option string) (st : state) : state * response :=
  if negb (js_truthy account_id) then (st, bad_request "Account ID required")
  else
    let clientId := js_String account_id in
    match client_info clientId st with
    | Some user => (st, ok_json (BConnected (Some user)))
    | None =>
        let h := length (objects st) in
        let st := alloc (mkClient clientId None) st in
        let st := emit [ENewTransport h clientId] st in
        let st := set_client clientId h st in
        let st := set_status clientId default_status st in
        let st := emit [EInitialize h] st in
        (st, ok_json (BMessage "Connecting..."))
    end.

(** GET /api/whatsapp/status *)
Definition get_status (account_id : option string) (st : state) : response :=
  if negb (js_truthy account_id) then bad_request "Account ID required"
  else
    let clientId := js_String account_id in
    let qr := qrCodes st !! clientId ≫= or_null in
    let status := default default_status (connectionStatus st !! clientId) in
    match client_info clientId st with
    | Some user => ok_json (BStatus qr true (authenticating status) (Some user))
    | None => ok_json (BStatus qr false (authenticating status) (phone status))
    end.

(** POST /api/whatsapp/send; [send_ok] is whether [client.sendMessage]
    resolves. *)
Definition send (account_id phone_no message : option string) (send_ok : bool)
    (st : state) : state * response :=
  if negb (js_truthy account_id) || negb (js_truthy phone_no)
     || negb (js_truthy message)
  then (st, bad_request "Account ID, phone, and message required")
  else
    let clientId := js_String account_id in
    match whatsappClients st !! clientId with
    | None => (st, bad_request "WhatsApp not connected")
    | Some h =>
        match objects st !! h ≫= info with
        | None => (st, bad_request "WhatsApp not connected")
        | Some _ =>
            let formattedPhone := strip_non_digits (js_String phone_no) +:+ "@c.us" in
            let st := emit [ESendMessage h formattedPhone (js_String message)] st in
            if send_ok then (st, ok_json (BMessage "Message sent"))
            else (st, server_error "Failed to send message")
        end
    end.

(** *** Transport events

    Each handler is a closure over [clientId] and [client]; an event raised by
    the object [h] therefore acts on [owner] of [h], whatever the registry
    holds for that account by then. *)
Section Events.

(** QRCode.toDataURL of the qrcode package; [None] when it rejects. *)
Variable toDataURL : string -> option string.

(** client.on('qr', ..).  The handler awaits the renderer; here the two
    halves are one step, which is the case of a renderer that answers before
    the next handler runs.  [Gateway.qr_delivered] and [Gateway.qr_rendered]
    are the two halves apart. *)
Definition on_qr (h : handle) (qr : string) (st : state) : state :=
  match objects st !! h with
  | None => st
  | Some c =>
      let st := emit [ERender qr] st in
      match toDataURL qr with
      | Some qrDataUrl =>
          emit [ELog (LogQrGenerated (owner c))] (set_qr (owner c) qrDataUrl st)
      | None => emit [ELog LogQrError] st
      end
  end.

End Events.

(** client.on('ready', ..), for a library that stores [user] in
    [client.info] as it raises the event.  [Gateway.InfoSet] and
    [Gateway.ready_delivered] take the two apart. *)
Definition on_ready (h : handle) (user : string) (st : state) : state :=
  match objects st !! h with
  | None => st
  | Some c =>
      let st := set_info h (Some user) st in
      let st := delete_qr (owner c) st in
      let ph := or_null user in
      let st := set_status (owner c) (mkStatus true ph false) st in
      notifyPhpBackend (owner c) "connected" ph st
  end.

(** client.on('authenticated', ..) *)
Definition on_authenticated (h : handle) (st : state) : state :=
  match objects st !! h with
  | None => st
  | Some c =>
      let current := default default_status (connectionStatus st !! owner c) in
      set_status (owner c) (mkStatus (connected current) (phone current) true) st
  end.

(** *** cleanup *)

(** What the outside world answers to one run of [cleanup]: whether
    [client.logout()] and [client.destroy()] resolve and whether [fs.rmSync]
    returns.  The catch block of [destroy] is empty, so nothing below reads
    [destroy_ok]: both answers lead to the same next step. *)
Record outcomes := mkOutcomes {
  logout_ok : bool;
  destroy_ok : bool;
  rm_ok : bool;
}.

(** Where a run of [cleanup] is suspended; [h] is its local [client]. *)
Inductive cleanup_pc :=
| CStart
| CAwaitLogout (h : handle)
| CAwaitDelay1 (h : handle)
| CAwaitDestroy
| CAwaitDelay2
| CDone.

(** From [whatsappClients.delete(clientId)] to the end of the function: no
    await, hence atomic.  [sessionDirs] names a session directory by the id
    it was made for; two ids that [path.join] resolves to one directory (ids
    with path separators) are not identified here. *)
Definition cleanup_tail (clientId : string) (o : outcomes) (st : state) : state :=
  let st := delete_client clientId st in
  let st := delete_qr clientId st in
  let st := set_status clientId default_status st in
  let st := emit [EUnregister clientId] st in
  if bool_decide (clientId ∈ sessionDirs st) then
    let st := emit [ERmSync clientId] st in
    if rm_ok o then
      emit [ELog (LogSessionFilesDeleted clientId)]
           (set_dirs (sessionDirs st ∖ {[clientId]}) st)
    else emit [ELog (LogSessionFilesLocked clientId)] st
  else st.

(** One atomic piece of [cleanup(clientId)], up to its next await. *)
Definition cleanup_step (clientId : string) (o : outcomes) (pc : cleanup_pc)
    (st : state) : state * cleanup_pc :=
  match pc with
  | CStart =>
      match whatsappClients st !! clientId with
      | Some h => (emit [ELogout h] st, CAwaitLogout h)
      | None => (cleanup_tail clientId o st, CDone)
      end
  | CAwaitLogout h =>
      let st :=
        if logout_ok o then emit [ELog (LogLoggedOut clientId)] st
        else emit [ELog (LogLogoutFailed clientId)] st in
      (emit [ESleep 3000] st, CAwaitDelay1 h)
  | CAwaitDelay1 h => (emit [EDestroy h] st, CAwaitDestroy)
  | CAwaitDestroy => (emit [ESleep 2500] st, CAwaitDelay2)
  | CAwaitDelay2 => (cleanup_tail clientId o st, CDone)
  | CDone => (st, CDone)
  end.

Fixpoint cleanup_from (fuel : nat) (clientId : string) (o : outcomes)
    (pc : cleanup_pc) (st : state) : state * cleanup_pc :=
  match fuel with
  | O => (st, pc)
  | S n =>
      let '(st', pc') := cleanup_step clientId o pc st in
      match pc' with
      | CDone => (st', CDone)
      | _ => cleanup_from n clientId o pc' st'
      end
  end.

(** [await cleanup(accountId)] with nothing else running in between. *)
Definition cleanup (clientId : string) (o : outcomes) (st : state) : state :=
  fst (cleanup_from 5 clientId o CStart st).

(** POST /api/whatsapp/disconnect, run without interleaving. *)
Definition disconnect (account_id : option string) (o : outcomes) (st : state)
    : state * response :=
  if negb (js_truthy account_id) then (st, bad_request "Account ID required")
  else
    let clientId := js_String account_id in
    let st := emit [ELog (LogDisconnectRequested clientId)] st in
    let st := cleanup clientId o st in
    let st := notifyPhpBackend clientId "disconnected" None st in
    (st, ok_json BSuccess).

(** *** Interleaving

    The three callers of [cleanup]: the disconnect route awaits it, the
    'disconnected' and 'auth_failure' handlers call it without await and go
    on. *)
Inductive origin := ByRoute | ByDisconnectedEvent | ByAuthFailure.

Record caller := mkCaller {
  t_origin : origin;
  t_id : string;
  t_out : outcomes;
  t_pc : cleanup_pc;
}.

Definition is_start (pc : cleanup_pc) : bool :=
  match pc with CStart => true | _ => false end.
Definition is_done (pc : cleanup_pc) : bool :=
  match pc with CDone => true | _ => false end.

(** Run a caller of [cleanup] up to its next await.  The route logs, then
    awaits [cleanup] and, once it is done, notifies and responds; the
    'disconnected' handler notifies as soon as the first piece of [cleanup]
    has returned its promise. *)
Definition step_caller (t : caller) (st : state) : state * caller * option response :=
  match t_pc t with
  | CDone => (st, t, None)
  | pc =>
      let st :=
        match t_origin t with
        | ByRoute =>
            if is_start pc then emit [ELog (LogDisconnectRequested (t_id t))] st else st
        | _ => st
        end in
      let '(st, pc') := cleanup_step (t_id t) (t_out t) pc st in
      let st :=
        match t_origin t with
        | ByDisconnectedEvent =>
            if is_start pc then notifyPhpBackend (t_id t) "disconnected" None st else st
        | _ => st
        end in
      let t' := mkCaller (t_origin t) (t_id t) (t_out t) pc' in
      match t_origin t with
      | ByRoute =>
          if is_done pc'
          then (notifyPhpBackend (t_id t) "disconnected" None st, t', Some (ok_json BSuccess))
          else (st, t', None)
      | _ => (st, t', None)
      end
  end.

(** The whole process: the store, the suspended callers of [cleanup], and the
    responses written so far. *)
Record sys := mkSys {
  store : state;
  callers : list caller;
  sent : list response;
}.

Definition boot : sys := mkSys init [] [].

Inductive input :=
| ReqConnect (account_id : option string)
| ReqStatus (account_id : option string)
| ReqSend (account_id phone_no message : option string) (send_ok : bool)
| ReqDisconnect (account_id : option string) (o : outcomes)
| EvQr (h : handle) (qr : string)
| EvReady (h : handle) (user : string)
| EvAuthenticated (h : handle)
| EvAuthFailure (h : handle) (o : outcomes)
| EvDisconnected (h : handle) (o : outcomes)
| EvSessionStored (h : handle)   (* LocalAuth wrote the session directory *)
| Resume (i : nat).

Definition reply (r : option response) : list response :=
  match r with Some r => [r] | None => [] end.

(** Start a caller of [cleanup]: it runs at once up to its first await. *)
Definition spawn (og : origin) (id : string) (o : outcomes) (s : sys) : sys :=
  let '(st, t, r) := step_caller (mkCaller og id o CStart) (store s) in
  mkSys st (callers s ++ [t]) (sent s ++ reply r).

Section System.

Variable toDataURL : string -> option string.

Definition sys_step (i : input) (s : sys) : sys :=
  match i with
  | ReqConnect a =>
      let '(st, r) := connect a (store s) in mkSys st (callers s) (sent s ++ [r])
  | ReqStatus a => mkSys (store s) (callers s) (sent s ++ [get_status a (store s)])
  | ReqSend a p m ok =>
      let '(st, r) := send a p m ok (store s) in mkSys st (callers s) (sent s ++ [r])
  | ReqDisconnect a o =>
      if negb (js_truthy a)
      then mkSys (store s) (callers s) (sent s ++ [bad_request "Account ID required"])
      else spawn ByRoute (js_String a) o s
  | EvQr h qr => mkSys (on_qr toDataURL h qr (store s)) (callers s) (sent s)
  | EvReady h user => mkSys (on_ready h user (store s)) (callers s) (sent s)
  | EvAuthenticated h => mkSys (on_authenticated h (store s)) (callers s) (sent s)
  | EvAuthFailure h o =>
      match objects (store s) !! h with
      | Some c => spawn ByAuthFailure (owner c) o s
      | None => s
      end
  | EvDisconnected h o =>
      match objects (store s) !! h with
      | Some c => spawn ByDisconnectedEvent (owner c) o s
      | None => s
      end
  | EvSessionStored h =>
      match objects (store s) !! h with
      | Some c =>
          mkSys (set_dirs ({[owner c]} ∪ sessionDirs (store s)) (store s))
                (callers s) (sent s)
      | None => s
      end
  | Resume i =>
      match callers s !! i with
      | Some t =>
          let '(st, t', r) := step_caller t (store s) in
          mkSys st (<[i:=t']> (callers s)) (sent s ++ reply r)
      | None => s
      end
  end.

Definition run (ins : list input) (s : sys) : sys :=
  foldl (fun s i => sys_step i s) s ins.

End System.

End WWeb.

(** ** The unnamed source, whatsapp-web.js build

    Same maps and client objects as [WWeb]; the account id is used as the key
    as it comes ([account_id], no [String(..)]).  Only the teardown differs:
    [logout] is called by the route, outside any try block, and [cleanup]
    starts at [destroy]. *)
Module WWebOld.
Import WWeb.

Inductive cleanup_pc :=
| CStart
| CAwaitDestroy
| CDone.

(** From [whatsappClients.delete(accountId)] to the end of the function. *)
Definition cleanup_tail (accountId : string) (o : outcomes) (st : state) : state :=
  let st := delete_client accountId st in
  let st := delete_qr accountId st in
  let st := set_status accountId default_status st in
  let st := emit [EUnregister accountId] st in
  if bool_decide (accountId ∈ sessionDirs st) then
    let st := emit [ERmSync accountId] st in
    if rm_ok o then
      emit [ELog (LogSessionFilesDeleted accountId)]
           (set_dirs (sessionDirs st ∖ {[accountId]}) st)
    else emit [ELog (LogSessionFilesLocked accountId)] st
  else st.

Definition cleanup_step (accountId : string) (o : outcomes) (pc : cleanup_pc)
    (st : state) : state * cleanup_pc :=
  match pc with
  | CStart =>
      match whatsappClients st !! accountId with
      | Some h => (emit [EDestroy h] st, CAwaitDestroy)
      | None => (cleanup_tail accountId o st, CDone)
      end
  | CAwaitDestroy => (cleanup_tail accountId o st, CDone)
  | CDone => (st, CDone)
  end.

(** [await cleanup(accountId)] with nothing else running in between. *)
Definition cleanup (accountId : string) (o : outcomes) (st : state) : state :=
  let '(st, pc) := cleanup_step accountId o CStart st in
  fst (cleanup_step accountId o pc st).

(** GET /api/whatsapp/status.  [qr] is declared [const]: the assignment
    [qr = null] of the connected case throws, and the catch block answers
    500; the Map updates of the fallback were made before that. *)
Definition get_status (account_id : option string) (st : state) : state * response :=
  if negb (js_truthy account_id) then (st, bad_request "Account ID required")
  else
    let id := js_String account_id in
    let qr := qrCodes st !! id ≫= or_null in
    let status := default default_status (connectionStatus st !! id) in
    if connected status then (st, server_error "Failed to get status")
    else
      match whatsappClients st !! id with
      | Some h =>
          match objects st !! h ≫= info with
          | Some user =>
              let st := set_status id (mkStatus true (Some user) false) st in
              (delete_qr id st, server_error "Failed to get status")
          | None => (st, ok_json (BStatus qr false false (phone status)))
          end
      | None => (st, ok_json (BStatus qr false false (phone status)))
      end.

(** POST /api/whatsapp/disconnect *)
Definition disconnect (account_id : option string) (o : outcomes) (st : state)
    : state * response :=
  if negb (js_truthy account_id) then (st, bad_request "Account ID required")
  else
    let id := js_String account_id in
    match whatsappClients st !! id with
    | Some h =>
        let st := emit [ELogout h] st in
        if logout_ok o then (cleanup id o st, ok_json BSuccess)
        else (st, server_error "Failed to disconnect")
    | None => (cleanup id o st, ok_json BSuccess)
    end.

End WWebOld.

(** ** The Baileys builds

    server.js ([ServerJs]) and the unnamed source ([Part000]) share every
    route modelled here; they differ in the retry branch of the
    'connection.update' handler. *)
Module Baileys.

Inductive build := ServerJs | Part000.

(** A socket: the account its handlers were closed over and [sock.user.id],
    which the library fills in once the pairing succeeded. *)
Record socket := mkSocket {
  owner : string;
  user_id : option string;
}.

(** A call of [startSession] suspended at its first awaits
    ([useMultiFileAuthState], [fetchLatestBaileysVersion]); [p_route] tells
    whether the connect route is awaiting it. *)
Record pending := mkPending {
  p_id : string;
  p_route : bool;
}.

Record state := mkState {
  sessions : gmap string handle;
  qrCodes : gmap string string;
  connectionStatus : gmap string status;
  sockets : list socket;
  timers : list (Z * string);   (* setTimeout(() => startSession(id), ms) not yet fired *)
  starting : list pending;
  trace : list effect;
}.

Definition init : state := mkState ∅ ∅ ∅ [] [] [] [].

Definition emit (es : list effect) (st : state) : state :=
  mkState (sessions st) (qrCodes st) (connectionStatus st) (sockets st)
          (timers st) (starting st) (trace st ++ es).

Definition set_session (id : string) (h : handle) (st : state) : state :=
  mkState (<[id:=h]> (sessions st)) (qrCodes st) (connectionStatus st)
          (sockets st) (timers st) (starting st) (trace st).

Definition delete_session (id : string) (st : state) : state :=
  mkState (delete id (sessions st)) (qrCodes st) (connectionStatus st)
          (sockets st) (timers st) (starting st) (trace st).

Definition set_status (id : string) (s : status) (st : state) : state :=
  mkState (sessions st) (qrCodes st) (<[id:=s]> (connectionStatus st))
          (sockets st) (timers st) (starting st) (trace st).

Definition set_qr (id : string) (url : string) (st : state) : state :=
  mkState (sessions st) (<[id:=url]> (qrCodes st)) (connectionStatus st)
          (sockets st) (timers st) (starting st) (trace st).

Definition delete_qr (id : string) (st : state) : state :=
  mkState (sessions st) (delete id (qrCodes st)) (connectionStatus st)
          (sockets st) (timers st) (starting st) (trace st).

Definition alloc (c : socket) (st : state) : state :=
  mkState (sessions st) (qrCodes st) (connectionStatus st) (sockets st ++ [c])
          (timers st) (starting st) (trace st).

Definition set_user (h : handle) (u : option string) (st : state) : state :=
  mkState (sessions st) (qrCodes st) (connectionStatus st)
          (alter (fun c => mkSocket (owner c) u) h (sockets st))
          (timers st) (starting st) (trace st).

Definition set_timers (t : list (Z * string)) (st : state) : state :=
  mkState (sessions st) (qrCodes st) (connectionStatus st) (sockets st)
          t (starting st) (trace st).

Definition set_starting (p : list pending) (st : state) : state :=
  mkState (sessions st) (qrCodes st) (connectionStatus st) (sockets st)
          (timers st) p (trace st).

Definition notifyPhpBackend (id : string) (s : string) (ph : option string)
    (st : state) : state :=
  emit [ENotify id s ph] st.

(** startSession(accountId) from [makeWASocket] on; [ok] is whether the two
    awaited calls before it resolved.  When they reject nothing was done. *)
Definition startSession (clientId : string) (ok : bool) (st : state)
    : state * option handle :=
  if ok then
    let h := length (sockets st) in
    let st := alloc (mkSocket clientId None) st in
    let st := emit [ENewTransport h clientId] st in
    (set_session clientId h st, Some h)
  else (st, None).

(** A call of [startSession] that nobody awaits yet: it stops at its first
    await. *)
Definition begin_start (clientId : string) (route : bool) (st : state) : state :=
  set_starting (starting st ++ [mkPending clientId route]) st.

(** [sessions.has(clientId)] and [status && status.connected] of the connect
    route. *)
Definition already_connected (clientId : string) (st : state) : option status :=
  match sessions st !! clientId with
  | Some _ =>
      match connectionStatus st !! clientId with
      | Some s => if connected s then Some s else None
      | None => None
      end
  | None => None
  end.

(** POST /api/whatsapp/connect, with [startSession] run without
    interleaving. *)
Definition connect (account_id : option string) (ok : bool) (st : state)
    : state * response :=
  if negb (js_truthy account_id) then (st, bad_request "Account ID required")
  else
    let clientId := js_String account_id in
    match already_connected clientId st with
    | Some s => (st, ok_json (BConnected (phone s)))
    | None =>
        match startSession clientId ok st with
        | (st, Some _) => (st, ok_json (BMessage "Connecting..."))
        | (st, None) => (st, server_error "Failed to start WhatsApp connection")
        end
    end.

(** GET /api/whatsapp/status *)
Definition get_status (account_id : option string) (st : state) : response :=
  if negb (js_truthy account_id) then bad_request "Account ID required"
  else
    let clientId := js_String account_id in
    let qr := qrCodes st !! clientId ≫= or_null in
    let s := default default_status (connectionStatus st !! clientId) in
    ok_json (BStatus qr (connected s)
               (negb (connected s) && negb (bool_decide (is_Some qr))
                && bool_decide (is_Some (sessions st !! clientId)))
               (phone s)).

(** POST /api/whatsapp/send *)
Definition send (account_id phone_no message : option string) (send_ok : bool)
    (st : state) : state * response :=
  if negb (js_truthy account_id) || negb (js_truthy phone_no)
     || negb (js_truthy message)
  then (st, bad_request "Missing fields")
  else
    match sessions st !! js_String account_id with
    | None => (st, bad_request "WhatsApp not connected")
    | Some h =>
        let jid := strip_non_digits (js_String phone_no) +:+ "@s.whatsapp.net" in
        let st := emit [ESendMessage h jid (js_String message)] st in
        if send_ok then (st, ok_json (BMessage "Message sent"))
        else (st, server_error "Failed to send")
    end.

(** POST /api/whatsapp/disconnect; [logout_ok] is whether [sock.logout()]
    resolves.  The route does not look at [account_id] before
    [String(account_id)]. *)
Definition disconnect (account_id : option string) (logout_ok : bool)
    (st : state) : state * response :=
  let clientId := js_String account_id in
  match sessions st !! clientId with
  | Some h =>
      let st := emit [ELogout h] st in
      if logout_ok then
        let st := delete_session clientId st in
        (notifyPhpBackend clientId "disconnected" None st, ok_json BSuccess)
      else (st, server_error "Failed to disconnect")
  | None => (notifyPhpBackend clientId "disconnected" None st, ok_json BSuccess)
  end.

(** The fields of a 'connection.update' event that the handler reads:
    [connection], [lastDisconnect?.error?.output?.statusCode] and [qr]. *)
Inductive connection := ConnClose | ConnOpen | ConnConnecting.

Record update := mkUpdate {
  u_connection : option connection;
  u_statusCode : option Z;
  u_qr : option string;
}.

Section Handler.

(** QRCode.toDataURL of the qrcode package; [None] when it rejects. *)
Variable toDataURL : string -> option string.
(** DisconnectReason.loggedOut of the Baileys package. *)
Variable loggedOut : Z.

Definition shouldReconnect (u : update) : bool :=
  negb (bool_decide (u_statusCode u = Some loggedOut)).

(** The [if (qr)] block of the handler (the await on the renderer is kept
    inside the step). *)
Definition on_qr (clientId : string) (u : update) (st : state) : state :=
  if js_truthy (u_qr u) then
    let qr := js_String (u_qr u) in
    let st := emit [ERender qr] st in
    match toDataURL qr with
    | Some qrDataUrl => emit [ELog (LogQrGenerated clientId)] (set_qr clientId qrDataUrl st)
    | None => emit [ELog LogQrError] st
    end
  else st.

(** The [connection === 'close'] block. *)
Definition on_close (b : build) (clientId : string) (u : update) (st : state)
    : state :=
  let st := delete_qr clientId st in
  let st := set_status clientId default_status st in
  if shouldReconnect u then
    match b with
    | ServerJs => begin_start clientId false st
    | Part000 =>
        let st := emit [ELog (LogReconnecting clientId)] st in
        emit [ESetTimeout 5000 clientId]
             (set_timers (timers st ++ [(5000%Z, clientId)]) st)
    end
  else
    let st := delete_session clientId st in
    let st := notifyPhpBackend clientId "disconnected" None st in
    emit [ERmSync clientId] st.

(** The [connection === 'open'] block; [sock.user.id.split(':')[0]] throws
    when [sock.user] is not set, which ends the handler there. *)
Definition on_open (h : handle) (clientId : string) (st : state) : state :=
  let st := delete_qr clientId st in
  match sockets st !! h ≫= user_id with
  | Some uid =>
      let ph := before_char ":" uid in
      let st := set_status clientId (mkStatus true (Some ph) false) st in
      notifyPhpBackend clientId "connected" (Some ph) st
  | None => st
  end.

(** sock.ev.on('connection.update', ..) of the socket [h]. *)
Definition on_update (b : build) (h : handle) (u : update) (st : state) : state :=
  match sockets st !! h with
  | None => st
  | Some c =>
      let clientId := owner c in
      let st := on_qr clientId u st in
      match u_connection u with
      | Some ConnClose => on_close b clientId u st
      | Some ConnOpen => on_open h clientId st
      | _ => st
      end
  end.

(** The callback of [setTimeout(() => startSession(clientId), 5000)]: it
    calls [startSession] and nothing else. *)
Definition fire_timer (i : nat) (st : state) : state :=
  match timers st !! i with
  | Some (_, clientId) =>
      begin_start clientId false (set_timers (delete i (timers st)) st)
  | None => st
  end.

(** A suspended [startSession] goes on; the connect route that awaits it
    answers. *)
Definition finish_start (i : nat) (ok : bool) (st : state)
    : state * option response :=
  match starting st !! i with
  | Some p =>
      let st := set_starting (delete i (starting st)) st in
      let '(st, r) := startSession (p_id p) ok st in
      if p_route p then
        match r with
        | Some _ => (st, Some (ok_json (BMessage "Connecting...")))
        | None => (st, Some (server_error "Failed to start WhatsApp connection"))
        end
      else (st, None)
  | None => (st, None)
  end.

Inductive input :=
| ReqConnect (account_id : option string)
| ReqStatus (account_id : option string)
| ReqSend (account_id phone_no message : option string) (send_ok : bool)
| ReqDisconnect (account_id : option string) (logout_ok : bool)
| EvUpdate (h : handle) (u : update)
| EvUser (h : handle) (uid : string)   (* the library sets sock.user *)
| TimerFires (i : nat)
| StartGoesOn (i : nat) (ok : bool).

(** One handler run, up to its next await; the responses are collected. *)
Definition sys_step (b : build) (i : input) (s : state * list response)
    : state * list response :=
  let '(st, out) := s in
  match i with
  | ReqConnect a =>
      if negb (js_truthy a) then (st, out ++ [bad_request "Account ID required"])
      else
        match already_connected (js_String a) st with
        | Some s => (st, out ++ [ok_json (BConnected (phone s))])
        | None => (begin_start (js_String a) true st, out)
        end
  | ReqStatus a => (st, out ++ [get_status a st])
  | ReqSend a p m ok => let '(st, r) := send a p m ok st in (st, out ++ [r])
  | ReqDisconnect a ok => let '(st, r) := disconnect a ok st in (st, out ++ [r])
  | EvUpdate h u => (on_update b h u st, out)
  | EvUser h uid => (set_user h (Some uid) st, out)
  | TimerFires i => (fire_timer i st, out)
  | StartGoesOn i ok =>
      let '(st, r) := finish_start i ok st in
      (st, out ++ match r with Some r => [r] | None => [] end)
  end.

Definition run (b : build) (ins : list input) (s : state * list response)
    : state * list response :=
  foldl (fun s i => sys_step b i s) s ins.

End Handler.

End Baileys.

(** * Statements of the specification

    The sentences of the specification that the code is compared with,
    written over the embedding. *)
Module Spec.

(** §4.1, connect: with a session already there (Connected or mid-handshake)
    no second transport is created. *)
Definition connect_creates_no_second_transport
    (st : WWeb.state) (account_id : option string) : Prop :=
  is_Some (WWeb.whatsappClients st !! js_String account_id) →
  count is_new_transport (WWeb.trace (fst (WWeb.connect account_id st)))
  = count is_new_transport (WWeb.trace st).

(** §4.2: when the retry timer fires, the retry is skipped if the account is
    no longer in the registry. *)
Definition retry_rechecks_registry (st : Baileys.state) (i : nat) : Prop :=
  ∀ ms id, Baileys.timers st !! i = Some (ms, id) →
    Baileys.sessions st !! id = None →
    Baileys.starting (Baileys.fire_timer i st) = Baileys.starting st.

(** §4.3: the steps of a terminal teardown and their order. *)
Inductive phase :=
| PLogout | PSettle | PRelease | PUnregister | PCredentials | PNotify.

Definition phase_of (e : effect) : option phase :=
  match e with
  | ELogout _ => Some PLogout
  | ESleep _ => Some PSettle
  | EDestroy _ => Some PRelease
  | EUnregister _ => Some PUnregister
  | ERmSync _ => Some PCredentials
  | ENotify _ _ _ => Some PNotify
  | _ => None
  end.

Definition phases (t : list effect) : list phase := omap phase_of t.

Definition strict_order : list phase :=
  [PLogout; PSettle; PRelease; PSettle; PUnregister; PCredentials; PNotify].

(** [done] is what a teardown did, from its first call to its last. *)
Definition in_strict_order (done : list effect) : Prop :=
  phases done = strict_order.

(** §4.3 and §8: logout, resource release, credential deletion and
    notification happen exactly once between [before] and [after]. *)
Definition destructive_steps_once (before after : list effect) : Prop :=
  count is_logout after = S (count is_logout before)
  ∧ count is_destroy after = S (count is_destroy before)
  ∧ count is_rm after = S (count is_rm before)
  ∧ count is_notify after = S (count is_notify before).

(** Every caller of [cleanup] has run to its end. *)
Definition all_done (s : WWeb.sys) : Prop :=
  Forall (λ t, WWeb.t_pc t = WWeb.CDone) (WWeb.callers s).

(** §8: whatever the interleaving [ins] of the callers of [cleanup], once
    they are all done the destructive steps were made once. *)
Definition cleanup_is_serialized (toDataURL : string → option string)
    (ins : list WWeb.input) (s : WWeb.sys) : Prop :=
  all_done (WWeb.run toDataURL ins s) →
  destructive_steps_once (WWeb.trace (WWeb.store s))
    (WWeb.trace (WWeb.store (WWeb.run toDataURL ins s))).

End Spec.

(** * Values for running the model

    A renderer shaped like the one of the qrcode package (a PNG data URL) and
    the number Baileys gives to [DisconnectReason.loggedOut]; used to run the
    handlers on examples, never in a general statement. *)
Module Sample.

Definition toDataURL (qr : string) : option string :=
  Some ("data:image/png;base64," +:+ qr).

Definition loggedOut : Z := 401.

(** The answers of a run of [cleanup] in which every call succeeds. *)
Definition all_ok : WWeb.outcomes := WWeb.mkOutcomes true true true.

(** server.js after [connect("acct1")] and after LocalAuth stored the
    session directory: client 0 is registered, not ready yet. *)
Definition registered : WWeb.sys :=
  WWeb.run toDataURL
    [WWeb.ReqConnect (Some "acct1"); WWeb.EvSessionStored 0] WWeb.boot.

(** The disconnect request and the transport's 'disconnected' event for
    "acct1", each resumed in turn until both are done. *)
Definition race : list WWeb.input :=
  [WWeb.ReqDisconnect (Some "acct1") all_ok; WWeb.EvDisconnected 0 all_ok;
   WWeb.Resume 0; WWeb.Resume 1; WWeb.Resume 0; WWeb.Resume 1;
   WWeb.Resume 0; WWeb.Resume 1; WWeb.Resume 0; WWeb.Resume 1].

(** The 'disconnected' event alone, resumed until [cleanup] is done. *)
Definition event_teardown : list WWeb.input :=
  [WWeb.EvDisconnected 0 all_ok;
   WWeb.Resume 0; WWeb.Resume 0; WWeb.Resume 0; WWeb.Resume 0].

(** The 'auth_failure' event alone, resumed until [cleanup] is done. *)
Definition auth_failure_teardown : list WWeb.input :=
  [WWeb.EvAuthFailure 0 all_ok;
   WWeb.Resume 0; WWeb.Resume 0; WWeb.Resume 0; WWeb.Resume 0].

(** A 'connection.update' that reports a close with status code [c]. *)
Definition closed (c : Z) : Baileys.update :=
  Baileys.mkUpdate (Some Baileys.ConnClose) (Some c) None.

(** The Baileys process after [connect("acct1")] went through: socket 0 is
    registered and still in its handshake. *)
Definition handshake (b : Baileys.build) : Baileys.state :=
  fst (Baileys.run toDataURL loggedOut b
         [Baileys.ReqConnect (Some "acct1"); Baileys.StartGoesOn 0 true]
         (Baileys.init, [])).

(** The same process once the socket has delivered a QR code: "acct1" is
    waiting for the scan. *)
Definition awaiting_scan (b : Baileys.build) : Baileys.state :=
  Baileys.on_update toDataURL loggedOut b 0
    (Baileys.mkUpdate None None (Some "2@raw")) (handshake b).

End Sample.

(** * The calls made by [cleanup], in closed form *)
Module Closed.

(** The calls of the last piece of [cleanup]; [dirs] are the session
    directories on disk when it runs. *)
Definition tail_effects (id : string) (o : WWeb.outcomes) (dirs : gset string)
    : list effect :=
  EUnregister id ::
  if bool_decide (id ∈ dirs) then
    [ERmSync id;
     ELog (if WWeb.rm_ok o then LogSessionFilesDeleted id
           else LogSessionFilesLocked id)]
  else [].

(** The calls of a whole run for a registered client [h]. *)
Definition cleanup_effects (id : string) (o : WWeb.outcomes) (h : handle)
    (dirs : gset string) : list effect :=
  [ELogout h;
   ELog (if WWeb.logout_ok o then LogLoggedOut id else LogLogoutFailed id);
   ESleep 3000; EDestroy h; ESleep 2500] ++ tail_effects id o dirs.

End Closed.

(** * The query routes and the start-up code *)

(** ** More of JavaScript's strings *)
Module Text.

(** [s.startsWith(p)] *)
Fixpoint starts_with (p s : string) : bool :=
  match p, s with
  | EmptyString, _ => true
  | String a p', String b s' => Ascii.eqb a b && starts_with p' s'
  | String _ _, EmptyString => false
  end.

(** [s.slice(n)] *)
Fixpoint drop_chars (n : nat) (s : string) : string :=
  match n, s with
  | O, _ => s
  | S n', String _ s' => drop_chars n' s'
  | S _, EmptyString => EmptyString
  end.

(** [s.includes(p)] *)
Fixpoint includes (p s : string) : bool :=
  starts_with p s
  || match s with
     | EmptyString => false
     | String _ s' => includes p s'
     end.

(** [s.replace(p, r)] for a string pattern [p]: the first occurrence only. *)
Fixpoint replace_first (p r s : string) : string :=
  if starts_with p s then r +:+ drop_chars (String.length p) s
  else
    match s with
    | EmptyString => EmptyString
    | String c s' => String c (replace_first p r s')
    end.

Fixpoint all_digits (s : string) : bool :=
  match s with
  | EmptyString => true
  | String c s' => is_digit c && all_digits s'
  end.

Fixpoint has_char (c : ascii) (s : string) : bool :=
  match s with
  | EmptyString => false
  | String d s' => Ascii.eqb d c || has_char c s'
  end.

End Text.

(** ** Answers of the query routes *)
Module Query.

(** One entry of [results] of check-numbers; a field the code leaves out is
    [None]. *)
Record number_result := mkNumber {
  n_input : string;
  n_valid : bool;
  n_formatted : option string;
  n_serialized : option string;
  n_reason : option string;
}.

(** One entry of [groups]. *)
Record group := mkGroup {
  g_id : string;
  g_name : string;
  g_participantCount : nat;
  g_unreadCount : nat;
}.

(** One entry of [participants]; [row_name] is written by the unnamed
    source only. *)
Record participant_row := mkRow {
  row_id : string;
  row_user : string;
  row_name : option string;
  row_isAdmin : bool;
  row_isSuperAdmin : bool;
}.

Inductive query_body :=
| QError (msg : string)
| QNumbers (results : list number_result)
| QGroups (groups : list group)
| QParticipants (participants : list participant_row).

Record query_response := mkQuery { q_code : Z; q_body : query_body }.

End Query.

(** ** server.js, whatsapp-web.js build: check-numbers and groups *)
Module WWebQueries.
Import Query.

(** What [client.getNumberId(n)] does: it rejects, resolves to [null], or to
    an id with [user] and [_serialized]. *)
Inductive id_answer :=
| IdThrows
| IdNone
| IdFound (user serialized : string).

(** The body of the loop over [numbers], from entry [i] on.  [getNumberId i n]
    is the answer to the call made for entry [i]; the second component lists
    the arguments of the calls made. *)
Fixpoint check_each (getNumberId : nat → string → id_answer) (i : nat)
    (numbers : list string) : list number_result * list string :=
  match numbers with
  | [] => ([], [])
  | number :: rest =>
      let cleanNumber := strip_non_digits number in
      let '(results, calls) := check_each getNumberId (S i) rest in
      match cleanNumber with
      | EmptyString =>
          (mkNumber number false None None (Some "Empty") :: results, calls)
      | String _ _ =>
          match getNumberId i cleanNumber with
          | IdFound user serialized =>
              (mkNumber number true (Some user) (Some serialized) None :: results,
               cleanNumber :: calls)
          | IdNone =>
              (mkNumber number false None None (Some "Not on WhatsApp") :: results,
               cleanNumber :: calls)
          | IdThrows =>
              (mkNumber number false None None (Some "Error checking") :: results,
               cleanNumber :: calls)
          end
      end
  end.

(** POST /api/whatsapp/check-numbers; [numbers] is [None] when the field is
    not an array. *)
Definition check_numbers (getNumberId : nat → string → id_answer)
    (account_id : option string) (numbers : option (list string))
    (st : WWeb.state) : query_response * list string :=
  match numbers with
  | Some l =>
      if negb (js_truthy account_id)
      then (mkQuery 400 (QError "Account ID and numbers array required"), [])
      else
        match WWeb.client_info (js_String account_id) st with
        | None => (mkQuery 400 (QError "WhatsApp not connected"), [])
        | Some _ =>
            let '(results, calls) := check_each getNumberId 0 l in
            (mkQuery 200 (QNumbers results), calls)
        end
  | None => (mkQuery 400 (QError "Account ID and numbers array required"), [])
  end.

(** A chat as the groups route reads it. *)
Record chat := mkChat {
  chat_id : string;
  chat_name : string;
  isGroup : bool;
  participants : nat;       (* chat.participants.length *)
  unreadCount : nat;
}.

(** What [client.getChats()] does: the chats, or an error and its message. *)
Inductive chats_answer :=
| ChatsOk (chats : list chat)
| ChatsThrow (message : string).

(** The calls of the retry loop. *)
Inductive call :=
| CGetChats
| CWait (ms : Z).

Definition is_getChats (c : call) : bool :=
  match c with CGetChats => true | CWait _ => false end.

Definition is_wait (c : call) : bool :=
  match c with CWait _ => true | CGetChats => false end.

(** The [while (attempts < 3)] loop.  [registered k] is what
    [whatsappClients.has(clientId)] answers at attempt [k], [getChats k] what
    the call of that attempt does.  The result is the chats, or the message of
    the error that leaves the loop; [None] when [fuel] runs out. *)
Fixpoint getChats_loop (fuel attempts : nat) (registered : nat → bool)
    (getChats : nat → chats_answer) : option (chats_answer) * list call :=
  match fuel with
  | O => (None, [])
  | S fuel' =>
      let '(tried, calls) :=
        if registered attempts then (getChats attempts, [CGetChats])
        else (ChatsThrow "Client disconnected", []) in
      match tried with
      | ChatsOk chats => (Some (ChatsOk chats), calls)
      | ChatsThrow message =>
          if Text.includes "Session closed" message
          then (Some (ChatsThrow "Client disconnected during request"), calls)
          else if (3 <=? S attempts)%nat
          then (Some (ChatsThrow message), calls)
          else
            let '(r, more) :=
              getChats_loop fuel' (S attempts) registered getChats in
            (r, calls ++ CWait 1000 :: more)
      end
  end.

Definition to_group (c : chat) : group :=
  mkGroup (chat_id c) (chat_name c) (participants c) (unreadCount c).

(** GET /api/whatsapp/groups.  The first test of the registry is made in the
    step of the guard; [registered k] answers the later ones, made after a
    wait during which other handlers ran. *)
Definition get_groups (registered : nat → bool) (getChats : nat → chats_answer)
    (account_id : option string) (st : WWeb.state) : query_response * list call :=
  if negb (js_truthy account_id) then (mkQuery 400 (QError "Account ID required"), [])
  else
    let clientId := js_String account_id in
    match WWeb.client_info clientId st with
    | None => (mkQuery 400 (QError "WhatsApp not connected"), [])
    | Some _ =>
        let has k :=
          match k with
          | O => bool_decide (is_Some (WWeb.whatsappClients st !! clientId))
          | S _ => registered k
          end in
        match getChats_loop 3 0 has getChats with
        | (Some (ChatsOk chats), calls) =>
            (mkQuery 200 (QGroups (to_group <$> List.filter isGroup chats)), calls)
        | (_, calls) => (mkQuery 500 (QError "Failed to fetch groups"), calls)
        end
    end.

End WWebQueries.

(** ** The Baileys builds: check-numbers and group-participants *)
Module BaileysQueries.
Import Query.

(** What [sock.onWhatsApp(n)] does: it rejects, resolves to an empty array,
    or to an array whose first entry has [exists] and [jid]. *)
Inductive wa_answer :=
| WaThrows
| WaEmpty
| WaEntry (exists_ : bool) (jid : string).

(** The loop over [numbers], from entry [i] on; [None] when a call rejected,
    which leaves the loop for the catch block of the route. *)
Fixpoint check_each (onWhatsApp : nat → string → wa_answer) (i : nat)
    (numbers : list string) : option (list number_result) :=
  match numbers with
  | [] => Some []
  | number :: rest =>
      let clean := strip_non_digits number in
      match clean with
      | EmptyString => check_each onWhatsApp (S i) rest
      | String _ _ =>
          match onWhatsApp i clean with
          | WaThrows => None
          | WaEntry true jid =>
              cons (mkNumber number true (Some (before_char "@" jid)) None None)
                <$> check_each onWhatsApp (S i) rest
          | _ =>
              cons (mkNumber number false None None None)
                <$> check_each onWhatsApp (S i) rest
          end
      end
  end.

(** POST /api/whatsapp/check-numbers.  Neither field is checked: a missing
    [numbers] makes the [for .. of] throw. *)
Definition check_numbers (onWhatsApp : nat → string → wa_answer)
    (account_id : option string) (numbers : option (list string))
    (st : Baileys.state) : query_response :=
  match Baileys.sessions st !! js_String account_id with
  | None => mkQuery 400 (QError "Not connected")
  | Some _ =>
      match numbers ≫= check_each onWhatsApp 0 with
      | Some results => mkQuery 200 (QNumbers results)
      | None => mkQuery 500 (QError "Failed to check")
      end
  end.

(** A participant of [metadata.participants]: [id], [admin] ([null],
    ['admin'] or ['superadmin']) and [notify]. *)
Record participant := mkParticipant {
  p_id : string;
  p_admin : option string;
  p_notify : option string;
}.

(** The [user] field of a row. *)
Definition user_of (b : Baileys.build) (pid : string) : string :=
  let user := before_char "@" pid in
  match b with
  | Baileys.ServerJs => user
  | Baileys.Part000 =>
      let user := if Text.has_char ":" user then before_char ":" user else user in
      if Text.starts_with "lid-" user then Text.replace_first "lid-" "" user
      else user
  end.

Definition admin_is (role : string) (p : participant) : bool :=
  bool_decide (p_admin p = Some role).

Definition to_row (b : Baileys.build) (p : participant) : participant_row :=
  match b with
  | Baileys.ServerJs =>
      mkRow (p_id p) (user_of b (p_id p)) None
            (admin_is "admin" p) (admin_is "superadmin" p)
  | Baileys.Part000 =>
      mkRow (p_id p) (user_of b (p_id p))
            (Some (default "" (p_notify p ≫= or_null)))
            (admin_is "admin" p || admin_is "superadmin" p)
            (admin_is "superadmin" p)
  end.

(** GET /api/whatsapp/group-participants; [metadata] is [None] when
    [sock.groupMetadata] rejects. *)
Definition group_participants (b : Baileys.build)
    (metadata : option (list participant)) (account_id : option string)
    (st : Baileys.state) : query_response :=
  match Baileys.sessions st !! js_String account_id with
  | None => mkQuery 400 (QError "Not connected")
  | Some _ =>
      match metadata with
      | Some ps => mkQuery 200 (QParticipants (to_row b <$> ps))
      | None => mkQuery 500 (QError "Failed to fetch participants")
      end
  end.

End BaileysQueries.

(** ** The unnamed source, Baileys build: sessions restored at start-up *)
Module Startup.

(** What the start-up code finds on disk: no [data/auth] directory, a
    directory that cannot be read, or its entries. *)
Inductive dir_listing :=
| NoAuthDir
| ReadFails
| Folders (names : list string).

(** The last argument of [path.join] for [authPath] in [startSession]:
    [`session-${clientId}`]. *)
Definition session_dir (clientId : string) : string := "session-" +:+ clientId.

(** The entry of [data/auth] under which [startSession] keeps the credentials
    of [clientId].  The id is not checked; [path.join] keeps [session_dir] as
    one component only when the id holds no path separator.  With one, the
    components of the id are resolved ('a/b' is kept under the entry
    'session-a'), and the entry is left undetermined here. *)
Definition session_entry (clientId : string) : option string :=
  if Text.has_char "/" clientId || Text.has_char "\" clientId then None
  else Some (session_dir clientId).

(** initSessions(): every entry whose name starts with ['session-'] gets a
    call of [startSession], which is not awaited. *)
Definition initSessions (d : dir_listing) (st : Baileys.state) : Baileys.state :=
  match d with
  | Folders names =>
      foldl (λ st folder,
               if Text.starts_with "session-" folder
               then Baileys.begin_start
                      (Text.replace_first "session-" "" folder) false st
               else st)
            st names
  | _ => st
  end.

End Startup.

(** * What every reachable state satisfies *)
Module Wf.

(** server.js, whatsapp-web.js build: a registered handle names a client
    object closed over that very account, and the account has a status
    record. *)
Definition registry_ok (clients : gmap string handle)
    (statuses : gmap string status) (objs : list WWeb.client) : Prop :=
  ∀ id h, clients !! id = Some h →
    (∃ c, objs !! h = Some c ∧ WWeb.owner c = id) ∧ is_Some (statuses !! id).

(** A client has [info] only once it reported ready. *)
Definition infos_ok (ins : list WWeb.input) (objs : list WWeb.client) : Prop :=
  ∀ h c u, objs !! h = Some c → WWeb.info c = Some u → WWeb.EvReady h u ∈ ins.

(** Every [sendMessage] went to a client that reported ready. *)
Definition sends_ok (ins : list WWeb.input) (t : list effect) : Prop :=
  ∀ h jid m, ESendMessage h jid m ∈ t → ∃ u, WWeb.EvReady h u ∈ ins.

Definition wweb_ok (ins : list WWeb.input) (st : WWeb.state) : Prop :=
  registry_ok (WWeb.whatsappClients st) (WWeb.connectionStatus st) (WWeb.objects st)
  ∧ infos_ok ins (WWeb.objects st)
  ∧ sends_ok ins (WWeb.trace st).

(** The Baileys builds: a registered handle names a socket closed over that
    account. *)
Definition sessions_ok (sessions : gmap string handle)
    (socks : list Baileys.socket) : Prop :=
  ∀ id h, sessions !! id = Some h →
    ∃ c, socks !! h = Some c ∧ Baileys.owner c = id.

(** A status record that says connected carries a phone without ':'. *)
Definition phones_ok (statuses : gmap string status) : Prop :=
  ∀ id s, statuses !! id = Some s → connected s = true →
    ∃ p, phone s = Some p ∧ Text.has_char ":" p = false.

(** Every retry timer is for 5000 ms, and server.js sets none. *)
Definition timers_ok (b : Baileys.build) (timers : list (Z * string))
    (t : list effect) : Prop :=
  (∀ ms id, (ms, id) ∈ timers → ms = 5000%Z)
  ∧ (∀ ms id, ESetTimeout ms id ∈ t → ms = 5000%Z)
  ∧ (b = Baileys.ServerJs → timers = [] ∧ ∀ ms id, ESetTimeout ms id ∉ t).

(** A response that says connected carries such a phone too. *)
Definition connected_has_phone (r : response) : Prop :=
  match payload r with
  | BStatus _ true _ ph | BConnected ph =>
      ∃ p, ph = Some p ∧ Text.has_char ":" p = false
  | _ => True
  end.

Definition baileys_ok (b : Baileys.build) (s : Baileys.state * list response)
    : Prop :=
  sessions_ok (Baileys.sessions (fst s)) (Baileys.sockets (fst s))
  ∧ phones_ok (Baileys.connectionStatus (fst s))
  ∧ timers_ok b (Baileys.timers (fst s)) (Baileys.trace (fst s))
  ∧ Forall connected_has_phone (snd s).

End Wf.

(** * server.js, whatsapp-web.js build: the whole HTTP surface

    Everything that build answers over HTTP, with the steps that [WWeb] takes
    in one piece split where the code suspends or where the library acts on
    its own: the constructor of the client can throw, the 'qr' handler
    suspends on the renderer, and [client.info] is written by the library,
    not by a handler. *)
Module Gateway.
Import Query.

(** POST /api/whatsapp/connect when [new Client(..)] (or [new LocalAuth(..)]
    inside it) throws: the catch block of the route answers 500 and nothing
    was registered.  The two guards before the constructor are those of
    [WWeb.connect]. *)
Definition connect_throws (account_id : option string) (st : WWeb.state)
    : response :=
  if negb (js_truthy account_id) then bad_request "Account ID required"
  else
    match WWeb.client_info (js_String account_id) st with
    | Some user => ok_json (BConnected (Some user))
    | None => server_error "Failed to start WhatsApp connection"
    end.

(** client.on('qr', ..) up to [await QRCode.toDataURL(qr)]: for a client
    that exists, the renderer is called; the handler is suspended with its
    [clientId] and the payload. *)
Definition qr_delivered (h : handle) (qr : string) (st : WWeb.state)
    : WWeb.state * list (string * string) :=
  match WWeb.objects st !! h with
  | None => (st, [])
  | Some c => (WWeb.emit [ERender qr] st, [(WWeb.owner c, qr)])
  end.

(** The rest of the handler, once the renderer answered [result] ([None]
    when it rejected). *)
Definition qr_rendered (clientId : string) (result : option string)
    (st : WWeb.state) : WWeb.state :=
  match result with
  | Some qrDataUrl =>
      WWeb.emit [ELog (LogQrGenerated clientId)] (WWeb.set_qr clientId qrDataUrl st)
  | None => WWeb.emit [ELog LogQrError] st
  end.

(** client.on('ready', ..) alone: the handler reads whatever [client.info]
    holds ([client.info?.wid?.user || null]). *)
Definition ready_delivered (h : handle) (st : WWeb.state) : WWeb.state :=
  match WWeb.objects st !! h with
  | None => st
  | Some c =>
      let st := WWeb.delete_qr (WWeb.owner c) st in
      let ph := WWeb.info c ≫= or_null in
      let st := WWeb.set_status (WWeb.owner c) (mkStatus true ph false) st in
      WWeb.notifyPhpBackend (WWeb.owner c) "connected" ph st
  end.

(** A participant of a chat as the route reads it. *)
Record member := mkMember {
  m_serialized : string;     (* p.id._serialized *)
  m_user : string;           (* p.id.user *)
  m_isAdmin : bool;
  m_isSuperAdmin : bool;
}.

(** What [client.getChatById(group_id)] does: it rejects, resolves to
    nothing, or to a chat. *)
Inductive chat_answer :=
| ChatThrows
| ChatMissing
| ChatFound (isGroup : bool) (members : list member).

Definition to_row (m : member) : participant_row :=
  mkRow (m_serialized m) (m_user m) None (m_isAdmin m) (m_isSuperAdmin m).

(** GET /api/whatsapp/group-participants *)
Definition group_participants (answer : chat_answer)
    (account_id group_id : option string) (st : WWeb.state) : query_response :=
  if negb (js_truthy account_id) || negb (js_truthy group_id)
  then mkQuery 400 (QError "Account ID and Group ID required")
  else
    match WWeb.client_info (js_String account_id) st with
    | None => mkQuery 400 (QError "WhatsApp not connected")
    | Some _ =>
        match answer with
        | ChatThrows => mkQuery 500 (QError "Failed to fetch participants")
        | ChatFound true members => mkQuery 200 (QParticipants (to_row <$> members))
        | _ => mkQuery 404 (QError "Group not found")
        end
    end.

(** What the routes outside [WWeb] answer: a query route, the health check
    ([timestamp] is the clock's reading) or the root route, whose body is
    constant. *)
Inductive reply :=
| Queried (q : query_response)
| Health (timestamp : string) (activeClients : nat)
| Root.

Record sys := mkSys {
  base : WWeb.sys;
  rendering : list (string * string);   (* 'qr' handlers waiting for the renderer *)
  queried : list reply;
}.

Definition boot : sys := mkSys WWeb.boot [] [].

Inductive input :=
| Old (i : WWeb.input)
| ReqConnectThrows (account_id : option string)
| QrDelivered (h : handle) (qr : string)
| RenderDone (i : nat)
| InfoSet (h : handle) (user : string)
| ReadyDelivered (h : handle)
| ReqCheckNumbers (getNumberId : nat → string → WWebQueries.id_answer)
    (account_id : option string) (numbers : option (list string))
| ReqGroups (registered : nat → bool) (getChats : nat → WWebQueries.chats_answer)
    (account_id : option string)
| ReqParticipants (answer : chat_answer) (account_id group_id : option string)
| ReqHealth (timestamp : string)
| ReqRoot.

Definition with_store (st : WWeb.state) (b : WWeb.sys) : WWeb.sys :=
  WWeb.mkSys st (WWeb.callers b) (WWeb.sent b).

Definition answer (r : response) (b : WWeb.sys) : WWeb.sys :=
  WWeb.mkSys (WWeb.store b) (WWeb.callers b) (WWeb.sent b ++ [r]).

Section Step.

Variable toDataURL : string → option string.

Definition step (i : input) (s : sys) : sys :=
  let st := WWeb.store (base s) in
  match i with
  | Old i => mkSys (WWeb.sys_step toDataURL i (base s)) (rendering s) (queried s)
  | ReqConnectThrows a =>
      mkSys (answer (connect_throws a st) (base s)) (rendering s) (queried s)
  | QrDelivered h qr =>
      let '(st', waiting) := qr_delivered h qr st in
      mkSys (with_store st' (base s)) (rendering s ++ waiting) (queried s)
  | RenderDone i =>
      match rendering s !! i with
      | Some (clientId, qr) =>
          mkSys (with_store (qr_rendered clientId (toDataURL qr) st) (base s))
                (delete i (rendering s)) (queried s)
      | None => s
      end
  | InfoSet h user =>
      mkSys (with_store (WWeb.set_info h (Some user) st) (base s))
            (rendering s) (queried s)
  | ReadyDelivered h =>
      mkSys (with_store (ready_delivered h st) (base s)) (rendering s) (queried s)
  | ReqCheckNumbers getNumberId a numbers =>
      mkSys (base s) (rendering s)
            (queried s ++ [Queried (fst (WWebQueries.check_numbers getNumberId a numbers st))])
  | ReqGroups registered getChats a =>
      mkSys (base s) (rendering s)
            (queried s ++ [Queried (fst (WWebQueries.get_groups registered getChats a st))])
  | ReqParticipants ans a g =>
      mkSys (base s) (rendering s)
            (queried s ++ [Queried (group_participants ans a g st)])
  | ReqHealth ts =>
      mkSys (base s) (rendering s)
            (queried s ++ [Health ts (size (WWeb.whatsappClients st))])
  | ReqRoot => mkSys (base s) (rendering s) (queried s ++ [Root])
  end.

Definition run (ins : list input) (s : sys) : sys :=
  foldl (λ s i, step i s) s ins.

End Step.



(** Two stores with the same maps, objects and directories; the traces,
    which record the renderer's arguments, are left out. *)
Definition same_maps (st st' : WWeb.state) : Prop :=
  WWeb.whatsappClients st = WWeb.whatsappClients st'
  ∧ WWeb.qrCodes st = WWeb.qrCodes st'
  ∧ WWeb.connectionStatus st = WWeb.connectionStatus st'
  ∧ WWeb.objects st = WWeb.objects st'
  ∧ WWeb.sessionDirs st = WWeb.sessionDirs st'.








End Gateway.

(** * Properties *)

Lemma count_app p t u : count p (t ++ u) = (count p t + count p u)%nat.
Proof. unfold count. by rewrite List.filter_app, length_app. Qed.

(** ** Status of an account that was never seen *)

(** C7: an account id that none of the three maps knows gets the default
    disconnected answer, with code 200, from the status route of server.js
    and from the status route of the Baileys build. *)
Theorem C7_status_unknown_default
    (w : WWeb.state) (b : Baileys.state) (account_id : option string) :
  js_truthy account_id = true →
  WWeb.whatsappClients w !! js_String account_id = None →
  WWeb.qrCodes w !! js_String account_id = None →
  WWeb.connectionStatus w !! js_String account_id = None →
  Baileys.sessions b !! js_String account_id = None →
  Baileys.qrCodes b !! js_String account_id = None →
  Baileys.connectionStatus b !! js_String account_id = None →
  WWeb.get_status account_id w = mkResponse 200 (BStatus None false false None)
  ∧ Baileys.get_status account_id b = mkResponse 200 (BStatus None false false None).
Proof.
  intros Ht Hc Hq Hs Hbs Hbq Hbc. split.
  - unfold WWeb.get_status, WWeb.client_info. cbv zeta.
    rewrite Ht, Hc, Hq, Hs. reflexivity.
  - unfold Baileys.get_status. cbv zeta.
    rewrite Ht, Hbs, Hbq, Hbc. reflexivity.
Qed.

Lemma C7_status_unknown_default_witness :
  WWeb.get_status (Some "ghost") WWeb.init
    = mkResponse 200 (BStatus None false false None)
  ∧ Baileys.get_status (Some "ghost") Baileys.init
    = mkResponse 200 (BStatus None false false None).
Proof. apply C7_status_unknown_default; reflexivity. Defined.

(** ** What [cleanup] leaves behind *)

Lemma wweb_tail_maps id o st :
  WWeb.whatsappClients (WWeb.cleanup_tail id o st) = delete id (WWeb.whatsappClients st)
  ∧ WWeb.qrCodes (WWeb.cleanup_tail id o st) = delete id (WWeb.qrCodes st)
  ∧ WWeb.connectionStatus (WWeb.cleanup_tail id o st)
    = <[id:=default_status]> (WWeb.connectionStatus st)
  ∧ WWeb.objects (WWeb.cleanup_tail id o st) = WWeb.objects st.
Proof.
  unfold WWeb.cleanup_tail. cbv zeta.
  case_bool_decide; [destruct (WWeb.rm_ok o)|]; done.
Qed.

(** [cleanup] run alone is its tail after the four awaited calls (client
    registered) or its tail alone (no client). *)
Lemma wweb_cleanup_unfold id o st :
  WWeb.cleanup id o st =
  match WWeb.whatsappClients st !! id with
  | Some h =>
      WWeb.cleanup_tail id o
        (WWeb.emit [ESleep 2500]
          (WWeb.emit [EDestroy h]
            (WWeb.emit [ESleep 3000]
              (WWeb.emit [ELog (if WWeb.logout_ok o then LogLoggedOut id
                                else LogLogoutFailed id)]
                (WWeb.emit [ELogout h] st)))))
  | None => WWeb.cleanup_tail id o st
  end.
Proof.
  cbv beta iota zeta delta [WWeb.cleanup WWeb.cleanup_from WWeb.cleanup_step].
  destruct (WWeb.whatsappClients st !! id) as [h|]; [|done].
  destruct (WWeb.logout_ok o); reflexivity.
Qed.

(** [cleanup] always runs to its end: five resumptions are enough. *)
Lemma wweb_cleanup_terminates id o st :
  snd (WWeb.cleanup_from 5 id o WWeb.CStart st) = WWeb.CDone.
Proof.
  cbv beta iota zeta delta [WWeb.cleanup_from WWeb.cleanup_step].
  destruct (WWeb.whatsappClients st !! id); reflexivity.
Qed.

Lemma wweb_cleanup_maps id o st :
  WWeb.whatsappClients (WWeb.cleanup id o st) = delete id (WWeb.whatsappClients st)
  ∧ WWeb.qrCodes (WWeb.cleanup id o st) = delete id (WWeb.qrCodes st)
  ∧ WWeb.connectionStatus (WWeb.cleanup id o st)
    = <[id:=default_status]> (WWeb.connectionStatus st)
  ∧ WWeb.objects (WWeb.cleanup id o st) = WWeb.objects st.
Proof.
  rewrite wweb_cleanup_unfold.
  destruct (WWeb.whatsappClients st !! id) as [h|] eqn:E;
    [|apply wweb_tail_maps].
  match goal with
  | |- context [WWeb.cleanup_tail id o ?s] => exact (wweb_tail_maps id o s)
  end.
Qed.

Lemma old_tail_maps id o st :
  WWeb.whatsappClients (WWebOld.cleanup_tail id o st) = delete id (WWeb.whatsappClients st)
  ∧ WWeb.qrCodes (WWebOld.cleanup_tail id o st) = delete id (WWeb.qrCodes st)
  ∧ WWeb.connectionStatus (WWebOld.cleanup_tail id o st)
    = <[id:=default_status]> (WWeb.connectionStatus st).
Proof.
  unfold WWebOld.cleanup_tail. cbv zeta.
  case_bool_decide; [destruct (WWeb.rm_ok o)|]; done.
Qed.

Lemma old_cleanup_maps id o st :
  WWeb.whatsappClients (WWebOld.cleanup id o st) = delete id (WWeb.whatsappClients st)
  ∧ WWeb.qrCodes (WWebOld.cleanup id o st) = delete id (WWeb.qrCodes st)
  ∧ WWeb.connectionStatus (WWebOld.cleanup id o st)
    = <[id:=default_status]> (WWeb.connectionStatus st).
Proof.
  cbv beta iota zeta delta [WWebOld.cleanup WWebOld.cleanup_step].
  destruct (WWeb.whatsappClients st !! id) as [h|]; cbn [fst];
    [|apply old_tail_maps].
  match goal with
  | |- context [WWebOld.cleanup_tail id o ?s] => exact (old_tail_maps id o s)
  end.
Qed.

(** C10: once [cleanup] has run for an account, the client map and the QR map
    have no entry for it, the status map keeps one, reset to the default
    record; the status route then answers from that record, and the status
    map has gained the account's key.  Holds for the [cleanup] of server.js
    and for the one of the unnamed source. *)
Theorem C10_cleanup_keeps_status_entry
    (st : WWeb.state) (id : string) (o : WWeb.outcomes) :
  id ≠ "" →
  (let st' := WWeb.cleanup id o st in
   WWeb.whatsappClients st' !! id = None
   ∧ WWeb.qrCodes st' !! id = None
   ∧ WWeb.connectionStatus st' !! id = Some default_status
   ∧ WWeb.get_status (Some id) st' = mkResponse 200 (BStatus None false false None)
   ∧ dom (WWeb.connectionStatus st') = {[id]} ∪ dom (WWeb.connectionStatus st))
  ∧
  (let st' := WWebOld.cleanup id o st in
   WWeb.whatsappClients st' !! id = None
   ∧ WWeb.qrCodes st' !! id = None
   ∧ WWeb.connectionStatus st' !! id = Some default_status
   ∧ WWebOld.get_status (Some id) st' = (st', mkResponse 200 (BStatus None false false None))
   ∧ dom (WWeb.connectionStatus st') = {[id]} ∪ dom (WWeb.connectionStatus st)).
Proof.
  intros Hid.
  assert (Ht : js_truthy (Some id) = true) by (destruct id; done).
  split; cbv zeta.
  - destruct (wweb_cleanup_maps id o st) as (Hc & Hq & Hs & _).
    assert (H1 : WWeb.whatsappClients (WWeb.cleanup id o st) !! id = None)
      by (rewrite Hc; apply lookup_delete_eq).
    assert (H2 : WWeb.qrCodes (WWeb.cleanup id o st) !! id = None)
      by (rewrite Hq; apply lookup_delete_eq).
    assert (H3 : WWeb.connectionStatus (WWeb.cleanup id o st) !! id = Some default_status)
      by (rewrite Hs; apply lookup_insert_eq).
    repeat split; try done.
    + unfold WWeb.get_status, WWeb.client_info. cbv zeta.
      rewrite Ht. simpl js_String. rewrite H1, H2, H3. reflexivity.
    + rewrite Hs. apply dom_insert_L.
  - destruct (old_cleanup_maps id o st) as (Hc & Hq & Hs).
    assert (H1 : WWeb.whatsappClients (WWebOld.cleanup id o st) !! id = None)
      by (rewrite Hc; apply lookup_delete_eq).
    assert (H2 : WWeb.qrCodes (WWebOld.cleanup id o st) !! id = None)
      by (rewrite Hq; apply lookup_delete_eq).
    assert (H3 : WWeb.connectionStatus (WWebOld.cleanup id o st) !! id = Some default_status)
      by (rewrite Hs; apply lookup_insert_eq).
    repeat split; try done.
    + unfold WWebOld.get_status. cbv zeta.
      rewrite Ht. simpl js_String. rewrite H1, H2, H3. reflexivity.
    + rewrite Hs. apply dom_insert_L.
Qed.

Lemma C10_cleanup_keeps_status_entry_witness :
  let st := fst (WWeb.connect (Some "acct1") WWeb.init) in
  let o := WWeb.mkOutcomes true true true in
  WWeb.whatsappClients st !! "acct1" = Some 0
  ∧ WWeb.whatsappClients (WWeb.cleanup "acct1" o st) !! "acct1" = None
  ∧ WWeb.connectionStatus (WWeb.cleanup "acct1" o st) !! "acct1" = Some default_status
  ∧ WWeb.connectionStatus (WWebOld.cleanup "acct1" o st) !! "acct1" = Some default_status.
Proof.
  intros st o.
  destruct (C10_cleanup_keeps_status_entry st "acct1" o) as [Hnew Hold]; [done|].
  cbv zeta in Hnew, Hold.
  destruct Hnew as (H1 & _ & H3 & _), Hold as (_ & _ & H3' & _).
  split; [reflexivity|]. auto.
Defined.

(** ** connect *)

(** C1 as stated fails: a second connect for an account whose client is
    registered but not yet ready constructs a second client, so two connect
    calls in a row for a new account leave two transport instances. *)
Lemma C1_second_connect_builds_second_transport :
  let st1 := fst (WWeb.connect (Some "acct1") WWeb.init) in
  ¬ Spec.connect_creates_no_second_transport st1 (Some "acct1")
  ∧ count is_new_transport
      (WWeb.trace (fst (WWeb.connect (Some "acct1") st1))) = 2.
Proof.
  split; [|reflexivity].
  intros H. unfold Spec.connect_creates_no_second_transport in H.
  assert (Hs : is_Some (WWeb.whatsappClients
                 (fst (WWeb.connect (Some "acct1") WWeb.init)) !! "acct1"))
    by (exists 0; reflexivity).
  specialize (H Hs). vm_compute in H. discriminate H.
Qed.

(** C1, amended: connect answers with the current status and creates nothing
    only when the session it finds is connected (server.js: the registered
    client has [info]; Baileys: a session is registered and its status record
    says connected).  When the registered session is still in its handshake,
    connect constructs one more transport, different from the registered one,
    and registers it in its place. *)
Theorem C1_connect_idempotent_only_when_connected
    (w : WWeb.state) (b : Baileys.state) (account_id : option string) :
  js_truthy account_id = true →
  let id := js_String account_id in
  (∀ user, WWeb.client_info id w = Some user →
     WWeb.connect account_id w = (w, ok_json (BConnected (Some user))))
  ∧ (∀ h0 c, WWeb.whatsappClients w !! id = Some h0 →
       WWeb.objects w !! h0 = Some c → WWeb.info c = None →
       let w' := fst (WWeb.connect account_id w) in
       let h := length (WWeb.objects w) in
       h ≠ h0
       ∧ WWeb.whatsappClients w' !! id = Some h
       ∧ WWeb.trace w' = WWeb.trace w ++ [ENewTransport h id; EInitialize h]
       ∧ snd (WWeb.connect account_id w) = ok_json (BMessage "Connecting..."))
  ∧ (∀ ok s, Baileys.already_connected id b = Some s →
       Baileys.connect account_id ok b = (b, ok_json (BConnected (phone s))))
  ∧ (∀ h0 c, Baileys.sessions b !! id = Some h0 →
       Baileys.sockets b !! h0 = Some c →
       Baileys.already_connected id b = None →
       let b' := fst (Baileys.connect account_id true b) in
       let h := length (Baileys.sockets b) in
       h ≠ h0
       ∧ Baileys.sessions b' !! id = Some h
       ∧ Baileys.trace b' = Baileys.trace b ++ [ENewTransport h id]
       ∧ snd (Baileys.connect account_id true b) = ok_json (BMessage "Connecting...")).
Proof.
  intros Ht id.
  assert (Hmid : ∀ h0 c, WWeb.whatsappClients w !! id = Some h0 →
            WWeb.objects w !! h0 = Some c → WWeb.info c = None →
            WWeb.client_info id w = None).
  { intros h0 c Hreg Hobj Hinfo. unfold WWeb.client_info.
    rewrite Hreg. simpl. rewrite Hobj. exact Hinfo. }
  split; [|split; [|split]].
  - intros user Hu. unfold WWeb.connect. cbv zeta. fold id. by rewrite Ht, Hu.
  - intros h0 c Hreg Hobj Hinfo. cbv zeta.
    pose proof (Hmid h0 c Hreg Hobj Hinfo) as Hnone.
    unfold WWeb.connect. cbv zeta. fold id. rewrite Ht, Hnone. simpl.
    split; [apply lookup_lt_Some in Hobj; lia|].
    split; [apply lookup_insert_eq|].
    split; [by rewrite <- app_assoc|reflexivity].
  - intros ok s Hs. unfold Baileys.connect. cbv zeta. fold id. by rewrite Ht, Hs.
  - intros h0 c Hreg Hobj Hnone. cbv zeta.
    unfold Baileys.connect. cbv zeta. fold id. rewrite Ht, Hnone. simpl.
    split; [apply lookup_lt_Some in Hobj; lia|].
    split; [apply lookup_insert_eq|]. done.
Qed.

Lemma C1_connect_idempotent_only_when_connected_witness :
  let w := fst (WWeb.connect (Some "acct1") WWeb.init) in
  let b := fst (Baileys.connect (Some "acct1") true Baileys.init) in
  WWeb.whatsappClients (fst (WWeb.connect (Some "acct1") w)) !! "acct1" = Some 1
  ∧ Baileys.sessions (fst (Baileys.connect (Some "acct1") true b)) !! "acct1" = Some 1.
Proof.
  intros w b.
  destruct (C1_connect_idempotent_only_when_connected w b (Some "acct1"))
    as (_ & Hw & _ & Hb); [reflexivity|].
  split.
  - apply (Hw 0 (WWeb.mkClient "acct1" None)); reflexivity.
  - apply (Hb 0 (Baileys.mkSocket "acct1" None)); reflexivity.
Defined.

(** ** The close handler of the Baileys builds *)

Section Close.

(** DisconnectReason.loggedOut, whatever its number. *)
Variable loggedOut : Z.

(** A close with the logged-out reason is terminal in both builds: no timer,
    no call of [startSession], the session leaves the registry, the backend
    is notified and the credential directory is removed. *)
Lemma close_logged_out_is_terminal b id u st :
  Baileys.u_statusCode u = Some loggedOut →
  let st' := Baileys.on_close loggedOut b id u st in
  Baileys.timers st' = Baileys.timers st
  ∧ Baileys.starting st' = Baileys.starting st
  ∧ Baileys.sessions st' !! id = None
  ∧ Baileys.connectionStatus st' !! id = Some default_status
  ∧ Baileys.trace st'
    = Baileys.trace st ++ [ENotify id "disconnected" None; ERmSync id].
Proof.
  intros Hu. unfold Baileys.on_close, Baileys.shouldReconnect. cbv zeta.
  rewrite bool_decide_eq_true_2 by done. simpl.
  repeat split; [apply lookup_delete_eq|apply lookup_insert_eq|].
  by rewrite <- app_assoc.
Qed.

(** Any other reason, unnamed source: exactly one timer is set, for the
    constant delay of 5000 ms, and nothing is started before it fires. *)
Lemma part000_close_sets_one_timer id u st :
  Baileys.u_statusCode u ≠ Some loggedOut →
  let st' := Baileys.on_close loggedOut Baileys.Part000 id u st in
  Baileys.timers st' = Baileys.timers st ++ [(5000%Z, id)]
  ∧ Baileys.starting st' = Baileys.starting st
  ∧ Baileys.sessions st' = Baileys.sessions st
  ∧ Baileys.trace st'
    = Baileys.trace st ++ [ELog (LogReconnecting id); ESetTimeout 5000 id].
Proof.
  intros Hu. unfold Baileys.on_close, Baileys.shouldReconnect. cbv zeta.
  rewrite bool_decide_eq_false_2 by done. simpl.
  repeat split. by rewrite <- app_assoc.
Qed.

(** Any other reason, server.js: [startSession] is called in the handler
    itself; no timer is set. *)
Lemma server_js_close_restarts_at_once id u st :
  Baileys.u_statusCode u ≠ Some loggedOut →
  let st' := Baileys.on_close loggedOut Baileys.ServerJs id u st in
  Baileys.timers st' = Baileys.timers st
  ∧ Baileys.starting st' = Baileys.starting st ++ [Baileys.mkPending id false]
  ∧ Baileys.trace st' = Baileys.trace st.
Proof.
  intros Hu. unfold Baileys.on_close, Baileys.shouldReconnect. cbv zeta.
  rewrite bool_decide_eq_false_2 by done. done.
Qed.

End Close.

(** C2 at the failing input: server.js, socket 0 of "acct1" reports a close
    with status 428.  The handler has called [startSession] at once
    and set no timer; the same event in the unnamed source sets the one
    5000 ms timer and starts nothing. *)
Theorem C2_server_js_close_retries_without_delay :
  let u := Sample.closed 428 in
  let s := Baileys.on_update Sample.toDataURL Sample.loggedOut Baileys.ServerJs 0 u
             (Sample.handshake Baileys.ServerJs) in
  let p := Baileys.on_update Sample.toDataURL Sample.loggedOut Baileys.Part000 0 u
             (Sample.handshake Baileys.Part000) in
  Baileys.timers s = []
  ∧ Baileys.starting s = [Baileys.mkPending "acct1" false]
  ∧ count is_timer (Baileys.trace s) = 0
  ∧ Baileys.timers p = [(5000%Z, "acct1")]
  ∧ Baileys.starting p = []
  ∧ count is_timer (Baileys.trace p) = 1.
Proof. vm_compute. repeat split. Qed.

(** ** The retry timer *)

(** C8 as stated fails: in the unnamed source, after a close (status 428) set
    the timer and a disconnect removed "acct1" from the registry, the timer
    still calls [startSession], and the account is registered again. *)
Lemma C8_timer_restarts_removed_session :
  let st := fst (Baileys.run Sample.toDataURL Sample.loggedOut Baileys.Part000
                   [Baileys.EvUpdate 0 (Sample.closed 428);
                    Baileys.ReqDisconnect (Some "acct1") true]
                   (Sample.handshake Baileys.Part000, [])) in
  Baileys.sessions st !! "acct1" = None
  ∧ ¬ Spec.retry_rechecks_registry st 0
  ∧ Baileys.sessions
      (fst (Baileys.finish_start 0 true (Baileys.fire_timer 0 st))) !! "acct1"
    = Some 1.
Proof.
  split; [reflexivity|]. split; [|reflexivity].
  intros H. specialize (H 5000%Z "acct1" eq_refl eq_refl).
  vm_compute in H. discriminate H.
Qed.

(** C8, amended: when the retry timer fires its callback calls
    [startSession] for the account without looking at the registry; once that
    call goes through, the account is registered with a new socket, whether
    or not it was registered when the timer fired. *)
Theorem C8_timer_calls_startSession_unconditionally
    (st : Baileys.state) (i : nat) (ms : Z) (id : string) :
  Baileys.timers st !! i = Some (ms, id) →
  let st1 := Baileys.fire_timer i st in
  let j := length (Baileys.starting st) in
  Baileys.timers st1 = delete i (Baileys.timers st)
  ∧ Baileys.starting st1 = Baileys.starting st ++ [Baileys.mkPending id false]
  ∧ Baileys.sessions st1 = Baileys.sessions st
  ∧ Baileys.sessions (fst (Baileys.finish_start j true st1)) !! id
    = Some (length (Baileys.sockets st))
  ∧ Baileys.trace (fst (Baileys.finish_start j true st1))
    = Baileys.trace st ++ [ENewTransport (length (Baileys.sockets st)) id].
Proof.
  intros Ht. cbv zeta. unfold Baileys.fire_timer. rewrite Ht.
  unfold Baileys.begin_start. simpl.
  repeat split.
  - unfold Baileys.finish_start. simpl.
    rewrite lookup_app_r by done. rewrite Nat.sub_diag. simpl.
    apply lookup_insert_eq.
  - unfold Baileys.finish_start. simpl.
    rewrite lookup_app_r by done. rewrite Nat.sub_diag. reflexivity.
Qed.

Lemma C8_timer_calls_startSession_unconditionally_witness :
  let st := fst (Baileys.run Sample.toDataURL Sample.loggedOut Baileys.Part000
                   [Baileys.EvUpdate 0 (Sample.closed 428);
                    Baileys.ReqDisconnect (Some "acct1") true]
                   (Sample.handshake Baileys.Part000, [])) in
  Baileys.timers st !! 0 = Some (5000%Z, "acct1")
  ∧ Baileys.starting (Baileys.fire_timer 0 st) = [Baileys.mkPending "acct1" false].
Proof.
  intros st. split; [reflexivity|].
  destruct (C8_timer_calls_startSession_unconditionally st 0 5000 "acct1")
    as (_ & H & _); [reflexivity|].
  exact H.
Defined.

(** ** send *)

(** server.js, whatsapp-web.js build: without a ready client the route answers
    400 and nothing else happens; in particular [sendMessage] is not
    called. *)
Lemma wweb_send_not_connected st account_id phone_no message send_ok :
  js_truthy account_id = true → js_truthy phone_no = true →
  js_truthy message = true →
  WWeb.client_info (js_String account_id) st = None →
  WWeb.send account_id phone_no message send_ok st
  = (st, bad_request "WhatsApp not connected").
Proof.
  intros Ha Hp Hm Hc. unfold WWeb.send. rewrite Ha, Hp, Hm. cbv zeta. simpl.
  unfold WWeb.client_info in Hc.
  destruct (WWeb.whatsappClients st !! js_String account_id) as [h|]; [|done].
  simpl in Hc. by rewrite Hc.
Qed.

(** In every build a send leaves the three maps and the transport objects as
    they were, whether the transport call succeeds or not. *)
Lemma wweb_send_keeps_state st account_id phone_no message send_ok :
  let st' := fst (WWeb.send account_id phone_no message send_ok st) in
  WWeb.whatsappClients st' = WWeb.whatsappClients st
  ∧ WWeb.qrCodes st' = WWeb.qrCodes st
  ∧ WWeb.connectionStatus st' = WWeb.connectionStatus st
  ∧ WWeb.objects st' = WWeb.objects st.
Proof.
  unfold WWeb.send. cbv zeta.
  repeat (case_match; try done).
Qed.

Lemma baileys_send_keeps_state st account_id phone_no message send_ok :
  let st' := fst (Baileys.send account_id phone_no message send_ok st) in
  Baileys.sessions st' = Baileys.sessions st
  ∧ Baileys.qrCodes st' = Baileys.qrCodes st
  ∧ Baileys.connectionStatus st' = Baileys.connectionStatus st
  ∧ Baileys.sockets st' = Baileys.sockets st.
Proof.
  unfold Baileys.send. cbv zeta.
  repeat (case_match; try done).
Qed.

(** A failed transport call is answered with 500. *)
Lemma wweb_send_failure_is_500 st account_id phone_no message h user :
  js_truthy account_id = true → js_truthy phone_no = true →
  js_truthy message = true →
  WWeb.whatsappClients st !! js_String account_id = Some h →
  WWeb.objects st !! h ≫= WWeb.info = Some user →
  snd (WWeb.send account_id phone_no message false st)
  = server_error "Failed to send message".
Proof.
  intros Ha Hp Hm Hc Hi. unfold WWeb.send. rewrite Ha, Hp, Hm. cbv zeta. simpl.
  by rewrite Hc, Hi.
Qed.

(** The Baileys route looks for a registered socket only: whatever the
    status record says, [sendMessage] is called on it. *)
Lemma baileys_send_whenever_registered st account_id phone_no message send_ok h :
  js_truthy account_id = true → js_truthy phone_no = true →
  js_truthy message = true →
  Baileys.sessions st !! js_String account_id = Some h →
  fst (Baileys.send account_id phone_no message send_ok st)
  = Baileys.emit
      [ESendMessage h (strip_non_digits (js_String phone_no) +:+ "@s.whatsapp.net")
         (js_String message)] st.
Proof.
  intros Ha Hp Hm Hs. unfold Baileys.send. rewrite Ha, Hp, Hm, Hs. simpl.
  by destruct send_ok.
Qed.

(** C4 at the failing input: the Baileys build, "acct1" waiting for the scan
    (the status route says not connected and shows the QR image).  The send
    route calls [sendMessage] on the socket and answers 200, or 500 when the
    call fails; it never answers 400. *)
Theorem C4_baileys_send_calls_transport_while_awaiting_scan :
  let st := Sample.awaiting_scan Baileys.ServerJs in
  Baileys.get_status (Some "acct1") st
  = ok_json (BStatus (Some "data:image/png;base64,2@raw") false false None)
  ∧ Baileys.send (Some "acct1") (Some "1555") (Some "hi") true st
    = (Baileys.emit [ESendMessage 0 "1555@s.whatsapp.net" "hi"] st,
       ok_json (BMessage "Message sent"))
  ∧ Baileys.send (Some "acct1") (Some "1555") (Some "hi") false st
    = (Baileys.emit [ESendMessage 0 "1555@s.whatsapp.net" "hi"] st,
       server_error "Failed to send")
  ∧ count is_send (Baileys.trace st) = 0
  ∧ count is_send
      (Baileys.trace
         (fst (Baileys.send (Some "acct1") (Some "1555") (Some "hi") true st))) = 1
  ∧ Sample.awaiting_scan Baileys.Part000 = st.
Proof. vm_compute. repeat split. Qed.

(** ** disconnect *)

(** server.js, whatsapp-web.js build: whatever the transport and the file
    system answer, the route runs [cleanup] to its end, then notifies, then
    answers success; by then the account has left the client map and the QR
    map. *)
Lemma wweb_disconnect_completes st account_id o :
  js_truthy account_id = true →
  let id := js_String account_id in
  let st' := fst (WWeb.disconnect account_id o st) in
  snd (WWeb.disconnect account_id o st) = ok_json BSuccess
  ∧ WWeb.whatsappClients st' !! id = None
  ∧ WWeb.qrCodes st' !! id = None
  ∧ WWeb.connectionStatus st' !! id = Some default_status
  ∧ last (WWeb.trace st') = Some (ENotify id "disconnected" None).
Proof.
  intros Ha. cbv zeta. unfold WWeb.disconnect. rewrite Ha. cbv zeta. simpl.
  set (st0 := WWeb.emit _ st).
  destruct (wweb_cleanup_maps (js_String account_id) o st0) as (Hc & Hq & Hs & _).
  rewrite Hc, Hq, Hs.
  repeat split;
    [apply lookup_delete_eq|apply lookup_delete_eq|apply lookup_insert_eq|].
  apply last_snoc.
Qed.

(** The same for the route interleaved with anything else: when the caller of
    the route produces its response, [cleanup] has just finished and the
    account is out of the client map. *)
Lemma wweb_route_answers_after_cleanup t st st' t' r :
  WWeb.step_caller t st = (st', t', Some r) →
  WWeb.t_origin t = WWeb.ByRoute
  ∧ WWeb.t_pc t' = WWeb.CDone
  ∧ r = ok_json BSuccess
  ∧ WWeb.whatsappClients st' !! WWeb.t_id t = None.
Proof.
  unfold WWeb.step_caller.
  destruct t as [og id o pc]. cbn [WWeb.t_pc WWeb.t_origin WWeb.t_id WWeb.t_out].
  assert (Htail : ∀ s, WWeb.whatsappClients
            (WWeb.notifyPhpBackend id "disconnected" None (WWeb.cleanup_tail id o s))
            !! id = None).
  { intros s. unfold WWeb.notifyPhpBackend, WWeb.emit. cbn [WWeb.whatsappClients].
    destruct (wweb_tail_maps id o s) as (-> & _). apply lookup_delete_eq. }
  destruct pc, og; cbn; try discriminate;
    try (destruct (WWeb.whatsappClients st !! id); cbn; try discriminate);
    try (destruct (WWeb.logout_ok o); cbn; discriminate);
    intros [= <- <- <-]; repeat split; apply Htail.
Qed.

(** The unnamed source's route calls [logout] outside [cleanup]: when it
    rejects, the route answers 500 and the client stays registered. *)
Lemma old_disconnect_aborts_when_logout_fails st account_id h d r :
  js_truthy account_id = true →
  WWeb.whatsappClients st !! js_String account_id = Some h →
  WWebOld.disconnect account_id (WWeb.mkOutcomes false d r) st
  = (WWeb.emit [ELogout h] st, server_error "Failed to disconnect").
Proof.
  intros Ha Hc. unfold WWebOld.disconnect. rewrite Ha. cbv zeta. simpl.
  by rewrite Hc.
Qed.

(** C5 at the failing input: the Baileys build, "acct1" waiting for the scan,
    and [sock.logout()] rejects.  The route answers 500; the session is still
    registered, its QR code is still served, and nothing but the logout call
    was made. *)
Theorem C5_baileys_disconnect_aborts_when_logout_fails :
  let st := Sample.awaiting_scan Baileys.ServerJs in
  let r := Baileys.disconnect (Some "acct1") false st in
  snd r = server_error "Failed to disconnect"
  ∧ Baileys.sessions (fst r) !! "acct1" = Some 0
  ∧ Baileys.qrCodes (fst r) !! "acct1" = Some "data:image/png;base64,2@raw"
  ∧ Baileys.trace (fst r) = Baileys.trace st ++ [ELogout 0]
  ∧ Baileys.disconnect (Some "acct1") false (Sample.awaiting_scan Baileys.Part000) = r.
Proof. vm_compute. repeat split. Qed.

(** ** The steps of [cleanup] *)

Lemma wweb_tail_trace id o st :
  WWeb.trace (WWeb.cleanup_tail id o st)
  = WWeb.trace st ++ Closed.tail_effects id o (WWeb.sessionDirs st).
Proof.
  unfold WWeb.cleanup_tail, Closed.tail_effects. cbv zeta. simpl.
  case_bool_decide; [destruct (WWeb.rm_ok o)|]; simpl;
    by rewrite <- ?app_assoc.
Qed.

Lemma wweb_cleanup_trace id o st :
  WWeb.trace (WWeb.cleanup id o st)
  = WWeb.trace st ++
    match WWeb.whatsappClients st !! id with
    | Some h => Closed.cleanup_effects id o h (WWeb.sessionDirs st)
    | None => Closed.tail_effects id o (WWeb.sessionDirs st)
    end.
Proof.
  rewrite wweb_cleanup_unfold.
  destruct (WWeb.whatsappClients st !! id) as [h|]; rewrite wweb_tail_trace;
    [|done].
  unfold Closed.cleanup_effects. simpl. by rewrite <- !app_assoc.
Qed.

Lemma tail_effects_counts id o dirs :
  count is_logout (Closed.tail_effects id o dirs) = 0
  ∧ count is_destroy (Closed.tail_effects id o dirs) = 0
  ∧ count is_notify (Closed.tail_effects id o dirs) = 0.
Proof. unfold Closed.tail_effects. case_bool_decide; done. Qed.

Lemma cleanup_effects_counts id o h dirs :
  count is_logout (Closed.cleanup_effects id o h dirs) = 1
  ∧ count is_destroy (Closed.cleanup_effects id o h dirs) = 1
  ∧ count is_notify (Closed.cleanup_effects id o h dirs) = 0.
Proof.
  unfold Closed.cleanup_effects. rewrite !count_app.
  destruct (tail_effects_counts id o dirs) as (-> & -> & ->). done.
Qed.

(** C6 as stated fails: the teardown started by the transport's
    'disconnected' event issues the notification right after the logout call,
    before the delays, the release and the removal; the one started by
    'auth_failure' issues none; [cleanup] of the unnamed source makes no
    logout call and waits for nothing; and a destroy call that fails leaves
    no line in the log (the route does the same as when it succeeds). *)
Lemma C6_event_teardown_notifies_second :
  let s0 := Sample.registered in
  let before := length (WWeb.trace (WWeb.store s0)) in
  let done_by ins :=
    drop before (WWeb.trace (WWeb.store (WWeb.run Sample.toDataURL ins s0))) in
  Spec.all_done (WWeb.run Sample.toDataURL Sample.event_teardown s0)
  ∧ ¬ Spec.in_strict_order (done_by Sample.event_teardown)
  ∧ Spec.phases (done_by Sample.event_teardown)
    = [Spec.PLogout; Spec.PNotify; Spec.PSettle; Spec.PRelease; Spec.PSettle;
       Spec.PUnregister; Spec.PCredentials]
  ∧ Spec.phases (done_by Sample.auth_failure_teardown)
    = [Spec.PLogout; Spec.PSettle; Spec.PRelease; Spec.PSettle;
       Spec.PUnregister; Spec.PCredentials]
  ∧ Spec.phases
      (drop before
         (WWeb.trace (WWebOld.cleanup "acct1" Sample.all_ok (WWeb.store s0))))
    = [Spec.PRelease; Spec.PUnregister; Spec.PCredentials]
  ∧ WWeb.disconnect (Some "acct1") (WWeb.mkOutcomes true false true) (WWeb.store s0)
    = WWeb.disconnect (Some "acct1") (WWeb.mkOutcomes true true true) (WWeb.store s0).
Proof.
  cbv zeta. split.
  - vm_compute. repeat constructor.
  - split; [|by vm_compute]. unfold Spec.in_strict_order. by vm_compute.
Qed.

(** C6, amended: in server.js the disconnect request for a registered client
    makes, in this order, the logout call, the 3000 ms wait, the destroy
    call, the 2500 ms wait, the removal from the maps, the deletion of the
    session directory (when there is one) and the notification, then answers
    success; this for every answer of logout, destroy and rmSync.  A failed
    logout and a failed deletion are logged, a failed destroy is not. *)
Theorem C6_disconnect_runs_every_step_in_order
    (st : WWeb.state) (account_id : option string) (h : handle)
    (o : WWeb.outcomes) :
  js_truthy account_id = true →
  WWeb.whatsappClients st !! js_String account_id = Some h →
  let id := js_String account_id in
  let st' := fst (WWeb.disconnect account_id o st) in
  snd (WWeb.disconnect account_id o st) = ok_json BSuccess
  ∧ WWeb.trace st'
    = WWeb.trace st ++
      [ELog (LogDisconnectRequested id);
       ELogout h;
       ELog (if WWeb.logout_ok o then LogLoggedOut id else LogLogoutFailed id);
       ESleep 3000; EDestroy h; ESleep 2500; EUnregister id] ++
      (if bool_decide (id ∈ WWeb.sessionDirs st) then
         [ERmSync id;
          ELog (if WWeb.rm_ok o then LogSessionFilesDeleted id
                else LogSessionFilesLocked id)]
       else []) ++
      [ENotify id "disconnected" None]
  ∧ (id ∈ WWeb.sessionDirs st →
     Spec.in_strict_order (drop (length (WWeb.trace st)) (WWeb.trace st'))).
Proof.
  intros Ha Hc. cbv zeta.
  assert (Htr : WWeb.trace (fst (WWeb.disconnect account_id o st))
    = WWeb.trace st ++
      [ELog (LogDisconnectRequested (js_String account_id));
       ELogout h;
       ELog (if WWeb.logout_ok o then LogLoggedOut (js_String account_id)
             else LogLogoutFailed (js_String account_id));
       ESleep 3000; EDestroy h; ESleep 2500; EUnregister (js_String account_id)] ++
      (if bool_decide (js_String account_id ∈ WWeb.sessionDirs st) then
         [ERmSync (js_String account_id);
          ELog (if WWeb.rm_ok o then LogSessionFilesDeleted (js_String account_id)
                else LogSessionFilesLocked (js_String account_id))]
       else []) ++
      [ENotify (js_String account_id) "disconnected" None]).
  { unfold WWeb.disconnect. rewrite Ha. cbv zeta.
    cbn [negb fst WWeb.notifyPhpBackend].
    unfold WWeb.notifyPhpBackend. cbn [WWeb.emit WWeb.trace].
    rewrite wweb_cleanup_trace. cbn [WWeb.emit WWeb.whatsappClients WWeb.trace WWeb.sessionDirs].
    rewrite Hc. unfold Closed.cleanup_effects, Closed.tail_effects.
    rewrite <- !app_assoc. reflexivity. }
  split; [by unfold WWeb.disconnect; rewrite Ha|].
  split; [exact Htr|].
  intros Hdir. unfold Spec.in_strict_order. rewrite Htr.
  rewrite drop_app_length.
  rewrite bool_decide_eq_true_2 by done.
  destruct (WWeb.logout_ok o), (WWeb.rm_ok o); reflexivity.
Qed.

Lemma C6_disconnect_runs_every_step_in_order_witness :
  let st := WWeb.store Sample.registered in
  let o := WWeb.mkOutcomes false false false in
  Spec.in_strict_order
    (drop (length (WWeb.trace st))
       (WWeb.trace (fst (WWeb.disconnect (Some "acct1") o st)))).
Proof.
  intros st o.
  destruct (C6_disconnect_runs_every_step_in_order st (Some "acct1") 0 o)
    as (_ & _ & H); [reflexivity|reflexivity|].
  apply H. by vm_compute.
Defined.

(** ** Callers of [cleanup] that overlap *)

(** C3 as stated fails: the disconnect request and the 'disconnected' event
    of the same client, interleaved at their awaits, both call logout and
    destroy on it, and both notify. *)
Lemma C3_racing_cleanups_run_twice :
  Spec.all_done (WWeb.run Sample.toDataURL Sample.race Sample.registered)
  ∧ ¬ Spec.cleanup_is_serialized Sample.toDataURL Sample.race Sample.registered
  ∧ (let t := WWeb.trace
                (WWeb.store (WWeb.run Sample.toDataURL Sample.race Sample.registered)) in
     count is_logout t = 2 ∧ count is_destroy t = 2 ∧ count is_notify t = 2).
Proof.
  assert (Hd : Spec.all_done
                 (WWeb.run Sample.toDataURL Sample.race Sample.registered))
    by (vm_compute; repeat constructor).
  split; [exact Hd|]. split; [|by vm_compute].
  intros H. destruct (H Hd) as (Hl & _). vm_compute in Hl. discriminate Hl.
Qed.

(** C3, amended: nothing serializes the runs of [cleanup].  A run that starts
    while the client is still registered calls logout on it, also when
    another run for the same account is suspended at its own logout; a run
    that starts after another one has finished finds no client and makes
    neither the logout nor the destroy call, so that these are made once. *)
Theorem C3_cleanup_once_only_when_sequential
    (st : WWeb.state) (id : string) (o1 o2 : WWeb.outcomes) (h : handle) :
  WWeb.whatsappClients st !! id = Some h →
  (let st1 := fst (WWeb.cleanup_step id o1 WWeb.CStart st) in
   WWeb.cleanup_step id o1 WWeb.CStart st
   = (WWeb.emit [ELogout h] st, WWeb.CAwaitLogout h)
   ∧ WWeb.cleanup_step id o2 WWeb.CStart st1
     = (WWeb.emit [ELogout h] st1, WWeb.CAwaitLogout h))
  ∧
  (let st1 := WWeb.cleanup id o1 st in
   let st2 := WWeb.cleanup id o2 st1 in
   count is_logout (WWeb.trace st1) = S (count is_logout (WWeb.trace st))
   ∧ count is_destroy (WWeb.trace st1) = S (count is_destroy (WWeb.trace st))
   ∧ count is_logout (WWeb.trace st2) = count is_logout (WWeb.trace st1)
   ∧ count is_destroy (WWeb.trace st2) = count is_destroy (WWeb.trace st1)).
Proof.
  intros Hc. split; cbv zeta.
  - unfold WWeb.cleanup_step. rewrite Hc. cbn [fst WWeb.emit WWeb.whatsappClients].
    by rewrite Hc.
  - assert (Hgone : WWeb.whatsappClients (WWeb.cleanup id o1 st) !! id = None).
    { destruct (wweb_cleanup_maps id o1 st) as (-> & _). apply lookup_delete_eq. }
    rewrite (wweb_cleanup_trace id o2), Hgone.
    rewrite (wweb_cleanup_trace id o1), Hc.
    rewrite !count_app.
    destruct (cleanup_effects_counts id o1 h (WWeb.sessionDirs st)) as (-> & -> & _).
    destruct (tail_effects_counts id o2 (WWeb.sessionDirs (WWeb.cleanup id o1 st)))
      as (-> & -> & _).
    lia.
Qed.

Lemma C3_cleanup_once_only_when_sequential_witness :
  let st := WWeb.store Sample.registered in
  let st2 := WWeb.cleanup "acct1" Sample.all_ok
               (WWeb.cleanup "acct1" Sample.all_ok st) in
  count is_logout (WWeb.trace st2) = 1 ∧ count is_destroy (WWeb.trace st2) = 1.
Proof.
  intros st st2.
  destruct (C3_cleanup_once_only_when_sequential st "acct1"
              Sample.all_ok Sample.all_ok 0) as (_ & H); [reflexivity|].
  cbv zeta in H. destruct H as (H1 & H2 & H3 & H4).
  subst st2. rewrite H3, H4, H1, H2. split; reflexivity.
Defined.

(** ** What crosses the HTTP boundary *)

(** *** Handlers do not read the trace *)

Ltac same_maps_start :=
  intros [] [] (? & ? & ? & ? & ?); simplify_eq/=.








Lemma cleanup_step_same id o pc :
  ∀ st st', Gateway.same_maps st st' →
  Gateway.same_maps (fst (WWeb.cleanup_step id o pc st))
                    (fst (WWeb.cleanup_step id o pc st'))
  ∧ snd (WWeb.cleanup_step id o pc st) = snd (WWeb.cleanup_step id o pc st').
Proof.
  same_maps_start. unfold WWeb.cleanup_step, WWeb.cleanup_tail. cbn.
  repeat case_match; by repeat split.
Qed.








(** *** The QR map only holds renderings *)




Section QrOnly.

Variable P : string → Prop.






End QrOnly.




(** The steps of [WWeb] are steps of the whole surface. *)
Lemma run_old f ins s :
  Gateway.base (Gateway.run f (Gateway.Old <$> ins) s)
  = WWeb.run f ins (Gateway.base s).
Proof.
  revert s. induction ins as [|i ins IH]; intros s; [done|].
  rewrite fmap_cons.
  change (Gateway.base (Gateway.run f (Gateway.Old <$> ins)
                          (Gateway.step f (Gateway.Old i) s))
          = WWeb.run f ins (WWeb.sys_step f i (Gateway.base s))).
  by rewrite IH.
Qed.



(** * Further properties of the code *)

(** ** Strings *)

Lemma strip_non_digits_all_digits s :
  Text.all_digits (strip_non_digits s) = true.
Proof.
  induction s as [|c s IH]; [done|]. simpl.
  destruct (is_digit c) eqn:E; [|done]. simpl. by rewrite E.
Qed.

Lemma strip_non_digits_fixes_digits s :
  Text.all_digits s = true → strip_non_digits s = s.
Proof.
  induction s as [|c s IH]; [done|]. simpl.
  intros [Hc Hs]%andb_true_iff. rewrite Hc. by rewrite IH.
Qed.

Lemma before_char_no_sep sep s :
  Text.has_char sep (before_char sep s) = false.
Proof.
  induction s as [|c s IH]; [done|]. simpl.
  destruct (Ascii.eqb c sep) eqn:E; [done|]. simpl. by rewrite E.
Qed.

Lemma before_char_keeps_others sep c s :
  Text.has_char c s = false → Text.has_char c (before_char sep s) = false.
Proof.
  induction s as [|d s IH]; [done|]. simpl.
  intros [Hd Hs]%orb_false_iff.
  destruct (Ascii.eqb d sep); [done|]. simpl. rewrite Hd. by apply IH.
Qed.

Lemma before_char_without_sep sep s :
  Text.has_char sep s = false → before_char sep s = s.
Proof.
  induction s as [|c s IH]; [done|]. simpl.
  intros [Hc Hs]%orb_false_iff. rewrite Hc. by rewrite IH.
Qed.

Lemma before_char_is_prefix sep s :
  before_char sep s = s ∨ ∃ rest, s = before_char sep s +:+ String sep rest.
Proof.
  induction s as [|c s IH]; [by left|]. simpl.
  destruct (Ascii.eqb c sep) eqn:E.
  - right. exists s. apply Ascii.eqb_eq in E as ->. done.
  - destruct IH as [->|[rest Hr]]; [by left|].
    right. exists rest.
    change (String c s = String c (before_char sep s +:+ String sep rest)).
    by rewrite <- Hr.
Qed.

Lemma drop_chars_keeps_absent c n s :
  Text.has_char c s = false → Text.has_char c (Text.drop_chars n s) = false.
Proof.
  revert s. induction n as [|n IH]; intros s; [done|].
  destruct s as [|d s]; [done|]. simpl.
  intros [_ Hs]%orb_false_iff. by apply IH.
Qed.

Lemma starts_with_app p s : Text.starts_with p (p +:+ s) = true.
Proof.
  induction p as [|a p IH]; [done|]. simpl.
  by rewrite Ascii.eqb_refl, IH.
Qed.

Lemma drop_chars_app p s : Text.drop_chars (String.length p) (p +:+ s) = s.
Proof. induction p as [|a p IH]; [by destruct s|]. simpl. apply IH. Qed.

Lemma replace_first_unfold p r s :
  Text.replace_first p r s =
  if Text.starts_with p s then r +:+ Text.drop_chars (String.length p) s
  else
    match s with
    | EmptyString => EmptyString
    | String c s' => String c (Text.replace_first p r s')
    end.
Proof. by destruct s. Qed.

Lemma replace_first_prefix p s : Text.replace_first p "" (p +:+ s) = s.
Proof.
  rewrite replace_first_unfold, starts_with_app, drop_chars_app. done.
Qed.

(** ** The address handed to the transport *)

(** X1: whatever the request, a send makes at most one call of the
    transport, and the address it passes is a string of digits followed by
    the suffix of the build ("@c.us" for whatsapp-web.js, "@s.whatsapp.net"
    for Baileys); every other character of the phone field is dropped. *)
Theorem X1_send_address_is_digits_and_suffix
    (w : WWeb.state) (b : Baileys.state)
    (account_id phone_no message : option string) (send_ok : bool) :
  (WWeb.trace (fst (WWeb.send account_id phone_no message send_ok w)) = WWeb.trace w
   ∨ ∃ h d, Text.all_digits d = true
       ∧ WWeb.trace (fst (WWeb.send account_id phone_no message send_ok w))
         = WWeb.trace w ++ [ESendMessage h (d +:+ "@c.us") (js_String message)])
  ∧
  (Baileys.trace (fst (Baileys.send account_id phone_no message send_ok b))
   = Baileys.trace b
   ∨ ∃ h d, Text.all_digits d = true
       ∧ Baileys.trace (fst (Baileys.send account_id phone_no message send_ok b))
         = Baileys.trace b
           ++ [ESendMessage h (d +:+ "@s.whatsapp.net") (js_String message)]).
Proof.
  split.
  - unfold WWeb.send. cbv zeta.
    destruct (_ || _); [by left|].
    destruct (WWeb.whatsappClients w !! js_String account_id) as [h|]; [|by left].
    destruct (WWeb.objects w !! h ≫= WWeb.info); [|by left].
    right. exists h, (strip_non_digits (js_String phone_no)).
    split; [apply strip_non_digits_all_digits|]. by destruct send_ok.
  - unfold Baileys.send. cbv zeta.
    destruct (_ || _); [by left|].
    destruct (Baileys.sessions b !! js_String account_id) as [h|]; [|by left].
    right. exists h, (strip_non_digits (js_String phone_no)).
    split; [apply strip_non_digits_all_digits|]. by destruct send_ok.
Qed.

(** X2: the send route does not look at what is left of the phone field: for
    a ready client, a non-empty phone without any digit is not refused, the
    transport is called with the bare suffix "@c.us" and the route answers
    as the transport does. *)
Theorem X2_send_accepts_phone_without_digits
    (st : WWeb.state) (account_id phone_no message : option string)
    (send_ok : bool) (h : handle) (user : string) :
  js_truthy account_id = true → js_truthy phone_no = true →
  js_truthy message = true →
  WWeb.whatsappClients st !! js_String account_id = Some h →
  WWeb.objects st !! h ≫= WWeb.info = Some user →
  strip_non_digits (js_String phone_no) = "" →
  WWeb.send account_id phone_no message send_ok st
  = (WWeb.emit [ESendMessage h "@c.us" (js_String message)] st,
     if send_ok then ok_json (BMessage "Message sent")
     else server_error "Failed to send message").
Proof.
  intros Ha Hp Hm Hc Hi Hd. unfold WWeb.send. rewrite Ha, Hp, Hm. cbv zeta.
  simpl. rewrite Hc, Hi, Hd. by destruct send_ok.
Qed.

Lemma X2_send_accepts_phone_without_digits_witness :
  let st := WWeb.on_ready 0 "15551234567" (fst (WWeb.connect (Some "acct1") WWeb.init)) in
  snd (WWeb.send (Some "acct1") (Some "n/a") (Some "hi") true st)
  = ok_json (BMessage "Message sent").
Proof.
  intros st.
  by rewrite (X2_send_accepts_phone_without_digits st (Some "acct1") (Some "n/a")
                (Some "hi") true 0 "15551234567").
Defined.

(** ** The phone stored when a Baileys connection opens *)

(** X3: when a socket whose user id is known reports 'open', the account's
    QR code is dropped, its status record says connected, and the phone
    stored and notified is the part of the user id before the first ':':
    it contains no ':' and the user id is that phone, alone or followed by
    ':' and a device suffix. *)
Theorem X3_open_stores_phone_without_device_suffix
    (st : Baileys.state) (h : handle) (clientId uid : string) :
  Baileys.sockets st !! h ≫= Baileys.user_id = Some uid →
  let st' := Baileys.on_open h clientId st in
  let ph := before_char ":" uid in
  Text.has_char ":" ph = false
  ∧ (ph = uid ∨ ∃ rest, uid = ph +:+ String ":" rest)
  ∧ Baileys.qrCodes st' !! clientId = None
  ∧ Baileys.connectionStatus st' !! clientId = Some (mkStatus true (Some ph) false)
  ∧ Baileys.trace st' = Baileys.trace st ++ [ENotify clientId "connected" (Some ph)].
Proof.
  intros Hu. cbv zeta. unfold Baileys.on_open. cbv zeta.
  cbn [Baileys.delete_qr Baileys.sockets]. rewrite Hu. simpl.
  split; [apply before_char_no_sep|].
  split; [apply before_char_is_prefix|].
  split; [apply lookup_delete_eq|].
  split; [apply lookup_insert_eq|done].
Qed.

Lemma X3_open_stores_phone_without_device_suffix_witness :
  let st := Baileys.set_user 0 (Some "15551234567:12@s.whatsapp.net")
              (Sample.awaiting_scan Baileys.Part000) in
  Baileys.connectionStatus (Baileys.on_open 0 "acct1" st) !! "acct1"
  = Some (mkStatus true (Some "15551234567") false).
Proof.
  intros st.
  destruct (X3_open_stores_phone_without_device_suffix st 0 "acct1"
              "15551234567:12@s.whatsapp.net") as (_ & _ & _ & H & _);
    [reflexivity|].
  exact H.
Defined.

(** ** check-numbers *)





Lemma baileys_check_each_inputs onWhatsApp i numbers results :
  BaileysQueries.check_each onWhatsApp i numbers = Some results →
  Query.n_input <$> results
  = List.filter (λ n, negb (String.eqb (strip_non_digits n) "")) numbers.
Proof.
  revert i results. induction numbers as [|n rest IH]; intros i results.
  - by intros [= <-].
  - simpl. destruct (strip_non_digits n) as [|c t] eqn:E; simpl.
    + apply IH.
    + destruct (onWhatsApp i (String c t)) as [| |[] jid]; [done|..];
        destruct (BaileysQueries.check_each onWhatsApp (S i) rest) as [rs|] eqn:Er;
        try done; intros [= <-]; simpl; f_equal; by eapply IH.
Qed.

(** X5: check-numbers of the Baileys build leaves out the entries without a
    digit: when it answers 200, the results are, in order, those of the
    entries of [numbers] that have a digit, so there can be fewer results
    than entries. *)
Theorem X5_baileys_check_numbers_skips_entries_without_digit
    (onWhatsApp : nat → string → BaileysQueries.wa_answer)
    (st : Baileys.state) (account_id : option string)
    (numbers : option (list string)) (results : list Query.number_result) :
  BaileysQueries.check_numbers onWhatsApp account_id numbers st
  = Query.mkQuery 200 (Query.QNumbers results) →
  ∃ l, numbers = Some l
    ∧ Query.n_input <$> results
      = List.filter (λ n, negb (String.eqb (strip_non_digits n) "")) l
    ∧ (length results ≤ length l)%nat.
Proof.
  unfold BaileysQueries.check_numbers.
  destruct (Baileys.sessions st !! js_String account_id); [|done].
  destruct numbers as [l|]; [|done]. simpl.
  destruct (BaileysQueries.check_each onWhatsApp 0 l) as [rs|] eqn:E; [|done].
  intros [= <-]. exists l. split; [done|].
  pose proof (baileys_check_each_inputs _ _ _ _ E) as H. split; [done|].
  rewrite <- (length_fmap Query.n_input), H. apply List.filter_length_le.
Qed.

Lemma X5_baileys_check_numbers_skips_entries_without_digit_witness :
  ∃ l, Some ["+1 (555) 010"; "n/a"] = Some l
    ∧ Query.n_input <$>
        [Query.mkNumber "+1 (555) 010" false None None None]
      = List.filter (λ n, negb (String.eqb (strip_non_digits n) "")) l
    ∧ (1 ≤ length l)%nat.
Proof.
  apply (X5_baileys_check_numbers_skips_entries_without_digit
           (λ _ _, BaileysQueries.WaEmpty) (Sample.handshake Baileys.Part000)
           (Some "acct1")).
  reflexivity.
Defined.

Lemma baileys_check_each_throw onWhatsApp i numbers k n :
  numbers !! k = Some n →
  strip_non_digits n ≠ "" →
  onWhatsApp (i + k) (strip_non_digits n) = BaileysQueries.WaThrows →
  BaileysQueries.check_each onWhatsApp i numbers = None.
Proof.
  revert i k. induction numbers as [|m rest IH]; intros i k Hk Hd Ht; [done|].
  destruct k as [|k]; simpl in *.
  - injection Hk as ->. rewrite Nat.add_0_r in Ht.
    destruct (strip_non_digits n); [done|]. by rewrite Ht.
  - assert (Hr : BaileysQueries.check_each onWhatsApp (S i) rest = None).
    { apply (IH (S i) k); [done|done|]. by rewrite Nat.add_succ_comm. }
    destruct (strip_non_digits m) as [|c t]; [done|].
    destruct (onWhatsApp i (String c t)) as [| |[] jid]; by rewrite ?Hr.
Qed.

(** X6: in the Baileys build one lookup that rejects fails the whole
    check-numbers request: the route answers 500 and none of the results
    gathered so far is returned. *)
Theorem X6_baileys_check_numbers_one_failure_fails_all
    (onWhatsApp : nat → string → BaileysQueries.wa_answer)
    (st : Baileys.state) (account_id : option string) (numbers : list string)
    (h : handle) (k : nat) (n : string) :
  Baileys.sessions st !! js_String account_id = Some h →
  numbers !! k = Some n →
  strip_non_digits n ≠ "" →
  onWhatsApp k (strip_non_digits n) = BaileysQueries.WaThrows →
  BaileysQueries.check_numbers onWhatsApp account_id (Some numbers) st
  = Query.mkQuery 500 (Query.QError "Failed to check").
Proof.
  intros Hs Hk Hd Ht. unfold BaileysQueries.check_numbers. rewrite Hs. simpl.
  by rewrite (baileys_check_each_throw onWhatsApp 0 numbers k n).
Qed.

Lemma X6_baileys_check_numbers_one_failure_fails_all_witness :
  BaileysQueries.check_numbers
    (λ k _, if (k =? 1)%nat then BaileysQueries.WaThrows
            else BaileysQueries.WaEntry true "1555010@s.whatsapp.net")
    (Some "acct1") (Some ["1555010"; "1555011"]) (Sample.handshake Baileys.Part000)
  = Query.mkQuery 500 (Query.QError "Failed to check").
Proof.
  apply (X6_baileys_check_numbers_one_failure_fails_all _ _ _ _ 0 1 "1555011");
    [reflexivity|reflexivity|discriminate|reflexivity].
Defined.

(** ** The retry loop of the groups route *)

(** X7: the groups route of server.js calls [getChats] at most three times
    and waits at most twice, one second each time, whatever the transport
    answers and whatever happens to the registry in between; its loop always
    comes to an end. *)
Theorem X7_groups_retry_is_bounded
    (registered : nat → bool) (getChats : nat → WWebQueries.chats_answer)
    (account_id : option string) (st : WWeb.state) :
  let calls := snd (WWebQueries.get_groups registered getChats account_id st) in
  (length (List.filter WWebQueries.is_getChats calls) ≤ 3)%nat
  ∧ (length (List.filter WWebQueries.is_wait calls) ≤ 2)%nat
  ∧ Forall (λ c, WWebQueries.is_wait c = true → c = WWebQueries.CWait 1000) calls
  ∧ (∀ has, fst (WWebQueries.getChats_loop 3 0 has getChats) ≠ None).
Proof.
  cbv zeta. split; [|split; [|split]].
  4: { intros has. cbn.
       repeat (case_match; simplify_eq; cbn; try done). }
  all: unfold WWebQueries.get_groups; cbv zeta.
  all: destruct (js_truthy account_id); cbn [negb]; [|cbn; try lia; constructor].
  all: destruct (WWeb.client_info _ st); [|cbn; try lia; constructor].
  all: cbn.
  all: repeat (case_match; simplify_eq; cbn; try lia; try done).
  all: repeat constructor; try done.
Qed.

(** X8: a client that leaves the registry during the retry wait does not
    end the loop: after a first failed call, the next two attempts find no
    client, make no call, and the route still waits one second before each
    of them; only then does it answer 500. *)
Theorem X8_groups_waits_on_for_removed_client
    (registered : nat → bool) (getChats : nat → WWebQueries.chats_answer)
    (account_id : option string) (st : WWeb.state) (user message : string) :
  js_truthy account_id = true →
  WWeb.client_info (js_String account_id) st = Some user →
  getChats 0 = WWebQueries.ChatsThrow message →
  Text.includes "Session closed" message = false →
  registered 1 = false → registered 2 = false →
  WWebQueries.get_groups registered getChats account_id st
  = (Query.mkQuery 500 (Query.QError "Failed to fetch groups"),
     [WWebQueries.CGetChats; WWebQueries.CWait 1000; WWebQueries.CWait 1000]).
Proof.
  intros Ha Hc H0 Hm H1 H2. unfold WWebQueries.get_groups. rewrite Ha, Hc.
  cbv zeta. cbn [negb].
  assert (Hreg : is_Some (WWeb.whatsappClients st !! js_String account_id)).
  { unfold WWeb.client_info in Hc.
    destruct (WWeb.whatsappClients st !! js_String account_id); [eauto|done]. }
  cbn. rewrite (bool_decide_eq_true_2 _ Hreg), H0, Hm, H1, H2. reflexivity.
Qed.

Lemma X8_groups_waits_on_for_removed_client_witness :
  let st := WWeb.on_ready 0 "15551234567" (fst (WWeb.connect (Some "acct1") WWeb.init)) in
  snd (WWebQueries.get_groups (λ _, false)
         (λ _, WWebQueries.ChatsThrow "Evaluation failed") (Some "acct1") st)
  = [WWebQueries.CGetChats; WWebQueries.CWait 1000; WWebQueries.CWait 1000].
Proof.
  intros st.
  by rewrite (X8_groups_waits_on_for_removed_client (λ _, false)
                (λ _, WWebQueries.ChatsThrow "Evaluation failed") (Some "acct1")
                st "15551234567" "Evaluation failed").
Defined.

(** X9: a 200 answer of the groups route comes from a real answer of the
    transport: one of the three attempts returned chats, the route waited
    once per attempt before it, and the groups listed are exactly the chats
    flagged as groups, in the transport's order. *)
Theorem X9_groups_answer_comes_from_transport
    (registered : nat → bool) (getChats : nat → WWebQueries.chats_answer)
    (account_id : option string) (st : WWeb.state)
    (groups : list Query.group) (calls : list WWebQueries.call) :
  WWebQueries.get_groups registered getChats account_id st
  = (Query.mkQuery 200 (Query.QGroups groups), calls) →
  ∃ k chats,
    (k < 3)%nat
    ∧ getChats k = WWebQueries.ChatsOk chats
    ∧ groups = WWebQueries.to_group <$> List.filter WWebQueries.isGroup chats
    ∧ length (List.filter WWebQueries.is_wait calls) = k
    ∧ length groups = length (List.filter WWebQueries.isGroup chats).
Proof.
  unfold WWebQueries.get_groups. cbv zeta.
  destruct (js_truthy account_id); cbn [negb]; [|done].
  destruct (WWeb.client_info _ st); [|done].
  cbn.
  repeat (case_match; simplify_eq; cbn; try done).
  all: intros [= <- <-].
  all: (exists 0 + exists 1 + exists 2); eexists;
       (split; [lia|]); (split; [eassumption|]);
       (split; [reflexivity|]); split; [reflexivity|apply length_fmap].
Qed.

Lemma X9_groups_answer_comes_from_transport_witness :
  let st := WWeb.on_ready 0 "15551234567" (fst (WWeb.connect (Some "acct1") WWeb.init)) in
  let chats := [WWebQueries.mkChat "1@g.us" "Team" true 3 0;
                WWebQueries.mkChat "2@c.us" "Ann" false 0 1] in
  ∃ k cs, (k < 3)%nat
    ∧ (λ k : nat, if (k =? 0)%nat then WWebQueries.ChatsThrow "Evaluation failed"
                  else WWebQueries.ChatsOk chats) k = WWebQueries.ChatsOk cs
    ∧ [Query.mkGroup "1@g.us" "Team" 3 0]
      = WWebQueries.to_group <$> List.filter WWebQueries.isGroup cs
    ∧ length (List.filter WWebQueries.is_wait
                [WWebQueries.CGetChats; WWebQueries.CWait 1000; WWebQueries.CGetChats]) = k
    ∧ length [Query.mkGroup "1@g.us" "Team" 3 0]
      = length (List.filter WWebQueries.isGroup cs).
Proof.
  intros st chats.
  apply (X9_groups_answer_comes_from_transport (λ _, true) _ (Some "acct1") st).
  reflexivity.
Defined.

(** ** The rows of group-participants *)

Lemma user_of_chars b pid :
  Text.has_char "@" (BaileysQueries.user_of b pid) = false
  ∧ (b = Baileys.Part000 → Text.has_char ":" (BaileysQueries.user_of b pid) = false).
Proof.
  unfold BaileysQueries.user_of. cbv zeta.
  pose proof (before_char_no_sep "@" pid) as Hat.
  destruct b; [by split|].
  set (u := before_char "@" pid) in *.
  assert (Hv : ∃ v, (if Text.has_char ":" u then before_char ":" u else u) = v
             ∧ Text.has_char "@" v = false ∧ Text.has_char ":" v = false).
  { destruct (Text.has_char ":" u) eqn:E.
    - eexists. split; [done|]. split; [|apply before_char_no_sep].
      by apply before_char_keeps_others.
    - by exists u. }
  destruct Hv as (v & -> & Hva & Hvc).
  destruct (Text.starts_with "lid-" v) eqn:El; [|by split].
  rewrite replace_first_unfold, El.
  change ("" +:+ ?x) with x.
  split; [|intros _]; by apply drop_chars_keeps_absent.
Qed.

(** X10: in a 200 answer of group-participants there is one row per
    participant, in order and with the participant's id; the [user] of a row
    never contains '@', and in the unnamed source it contains no ':' either
    (the device suffix is cut).  The unnamed source counts a superadmin as
    an admin; server.js never flags a row as both. *)
Theorem X10_participant_rows
    (b : Baileys.build) (metadata : option (list BaileysQueries.participant))
    (account_id : option string) (st : Baileys.state)
    (rows : list Query.participant_row) :
  BaileysQueries.group_participants b metadata account_id st
  = Query.mkQuery 200 (Query.QParticipants rows) →
  (∃ ps, metadata = Some ps ∧ Query.row_id <$> rows = BaileysQueries.p_id <$> ps)
  ∧ Forall (λ r,
      Text.has_char "@" (Query.row_user r) = false
      ∧ (b = Baileys.Part000 →
         Text.has_char ":" (Query.row_user r) = false
         ∧ (Query.row_isSuperAdmin r = true → Query.row_isAdmin r = true))
      ∧ (b = Baileys.ServerJs →
         Query.row_isAdmin r && Query.row_isSuperAdmin r = false)) rows.
Proof.
  unfold BaileysQueries.group_participants.
  destruct (Baileys.sessions st !! js_String account_id); [|done].
  destruct metadata as [ps|]; [|done]. intros [= <-]. split.
  - exists ps. split; [done|]. rewrite <- list_fmap_compose.
    apply list_fmap_ext. intros _ p _. by destruct b.
  - apply Forall_fmap, Forall_forall. intros p _.
    destruct (user_of_chars b (BaileysQueries.p_id p)) as [Hat Hcolon].
    destruct b; simpl.
    + split; [exact Hat|]. split; [done|]. intros _.
      unfold BaileysQueries.admin_is.
      destruct (BaileysQueries.p_admin p) as [role|]; [|done].
      repeat case_bool_decide; simplify_eq; done.
    + split; [exact Hat|]. split; [|done]. intros _.
      split; [by apply Hcolon|]. intros ->. apply orb_true_r.
Qed.

Lemma X10_participant_rows_witness :
  let ps := [BaileysQueries.mkParticipant "15551234567:3@s.whatsapp.net"
               (Some "superadmin") None] in
  BaileysQueries.group_participants Baileys.Part000 (Some ps) (Some "acct1")
    (Sample.handshake Baileys.Part000)
  = Query.mkQuery 200 (Query.QParticipants
      [Query.mkRow "15551234567:3@s.whatsapp.net" "15551234567" (Some "") true true])
  ∧ Forall (λ r, Text.has_char "@" (Query.row_user r) = false)
      [Query.mkRow "15551234567:3@s.whatsapp.net" "15551234567" (Some "") true true].
Proof.
  intros ps.
  assert (H : BaileysQueries.group_participants Baileys.Part000 (Some ps) (Some "acct1")
                (Sample.handshake Baileys.Part000)
              = Query.mkQuery 200 (Query.QParticipants
                  [Query.mkRow "15551234567:3@s.whatsapp.net" "15551234567"
                     (Some "") true true])) by reflexivity.
  split; [exact H|].
  destruct (X10_participant_rows _ _ _ _ _ H) as [_ Hall].
  eapply Forall_impl; [exact Hall|]. by intros r [Hr _].
Defined.

(** ** Sessions restored at start-up *)

Lemma init_sessions_fold names st :
  let st' := Startup.initSessions (Startup.Folders names) st in
  Baileys.starting st'
  = Baileys.starting st
    ++ ((λ f, Baileys.mkPending (Text.replace_first "session-" "" f) false)
          <$> List.filter (Text.starts_with "session-") names)
  ∧ Baileys.sessions st' = Baileys.sessions st
  ∧ Baileys.sockets st' = Baileys.sockets st
  ∧ Baileys.trace st' = Baileys.trace st.
Proof.
  cbv zeta. unfold Startup.initSessions. revert st.
  induction names as [|n names IH]; intros st.
  - simpl. by rewrite app_nil_r.
  - cbn [foldl List.filter].
    destruct (Text.starts_with "session-" n) eqn:E.
    + destruct (IH (Baileys.begin_start (Text.replace_first "session-" "" n) false st))
        as (-> & -> & -> & ->).
      rewrite fmap_cons. simpl. by rewrite <- app_assoc.
    + apply IH.
Qed.

(** X11: for account ids that hold no path separator, the entry of
    [data/auth] under which [startSession] keeps an account's credentials is
    read back to the same account id at start-up: for a [data/auth]
    directory holding the entries of [ids] after any entries that do not
    start with "session-", initSessions calls [startSession] once for each
    of [ids], in order and for nothing else; it registers no session and
    constructs no socket itself.  (An id with a separator is stored under
    another entry, and is not read back as itself.) *)
Theorem X11_init_sessions_restores_stored_accounts
    (st : Baileys.state) (others ids folders : list string) :
  Forall (λ n, Text.starts_with "session-" n = false) others →
  mapM Startup.session_entry ids = Some folders →
  let st' := Startup.initSessions (Startup.Folders (others ++ folders)) st in
  Baileys.starting st'
  = Baileys.starting st ++ ((λ id, Baileys.mkPending id false) <$> ids)
  ∧ Baileys.sessions st' = Baileys.sessions st
  ∧ Baileys.sockets st' = Baileys.sockets st
  ∧ Baileys.trace st' = Baileys.trace st.
Proof.
  intros Ho Hf. cbv zeta.
  destruct (init_sessions_fold (others ++ folders) st) as (-> & -> & -> & ->).
  repeat split. f_equal.
  rewrite List.filter_app.
  assert (H1 : List.filter (Text.starts_with "session-") others = []).
  { induction Ho as [|n l Hn _ IH]; [done|]. cbn [List.filter]. by rewrite Hn. }
  rewrite H1. rewrite app_nil_l. clear Ho H1.
  apply mapM_Some in Hf.
  induction Hf as [|id folder ids folders Hid _ IH]; [done|].
  unfold Startup.session_entry in Hid.
  destruct (Text.has_char "/" id || Text.has_char "\" id); [done|].
  injection Hid as <-.
  cbn [List.filter]. unfold Startup.session_dir at 1.
  rewrite starts_with_app. rewrite !fmap_cons.
  unfold Startup.session_dir at 1. rewrite replace_first_prefix. by rewrite IH.
Qed.

Lemma X11_init_sessions_restores_stored_accounts_witness :
  Baileys.starting
    (Startup.initSessions
       (Startup.Folders ([".DS_Store"] ++ ["session-acct1"; "session-7"]))
       Baileys.init)
  = [Baileys.mkPending "acct1" false; Baileys.mkPending "7" false].
Proof.
  destruct (X11_init_sessions_restores_stored_accounts Baileys.init
              [".DS_Store"] ["acct1"; "7"] ["session-acct1"; "session-7"])
    as [H _].
  - by repeat constructor.
  - reflexivity.
  - exact H.
Defined.

(** ** The registry of server.js over every run *)

Lemma registry_insert_status clients sts objs id s :
  Wf.registry_ok clients sts objs → Wf.registry_ok clients (<[id:=s]> sts) objs.
Proof.
  intros H id' h Hl. destruct (H id' h Hl) as [Ho Hs]. split; [done|].
  destruct (decide (id = id')) as [->|Hne].
  - rewrite lookup_insert_eq. eauto.
  - by rewrite lookup_insert_ne.
Qed.

Lemma registry_delete_client clients sts objs id :
  Wf.registry_ok clients sts objs → Wf.registry_ok (delete id clients) sts objs.
Proof. intros H id' h [_ Hl]%lookup_delete_Some. by apply H. Qed.

Lemma registry_set_info clients sts objs h i :
  Wf.registry_ok clients sts objs →
  Wf.registry_ok clients sts
    (alter (λ c, WWeb.mkClient (WWeb.owner c) i) h objs).
Proof.
  intros H id' h' Hl. destruct (H id' h' Hl) as [(c & Hc & Ho) Hs].
  split; [|done]. destruct (decide (h = h')) as [->|Hne].
  - exists (WWeb.mkClient (WWeb.owner c) i).
    by rewrite list_lookup_alter_eq, Hc.
  - exists c. by rewrite list_lookup_alter_ne.
Qed.

Lemma registry_connect clients sts objs id s i :
  Wf.registry_ok clients sts objs →
  Wf.registry_ok (<[id:=length objs]> clients) (<[id:=s]> sts)
    (objs ++ [WWeb.mkClient id i]).
Proof.
  intros H id' h Hl. destruct (decide (id = id')) as [->|Hne].
  - rewrite lookup_insert_eq in Hl. injection Hl as <-. split.
    + exists (WWeb.mkClient id' i). split; [|done]. rewrite lookup_app_r by done.
      rewrite Nat.sub_diag. reflexivity.
    + rewrite lookup_insert_eq. eauto.
  - rewrite lookup_insert_ne in Hl by done.
    destruct (H id' h Hl) as [(c & Hc & Ho) Hs]. split.
    + exists c. split; [|done]. by apply lookup_app_l_Some.
    + by rewrite lookup_insert_ne.
Qed.

Lemma infos_mono ins i objs :
  Wf.infos_ok ins objs → Wf.infos_ok (ins ++ [i]) objs.
Proof. intros H h c u Hc Hu. apply elem_of_app. left. eauto. Qed.

Lemma sends_mono ins i t : Wf.sends_ok ins t → Wf.sends_ok (ins ++ [i]) t.
Proof.
  intros H h jid m He. destruct (H h jid m He) as [u Hu].
  exists u. apply elem_of_app. by left.
Qed.

Lemma sends_app_quiet ins t es :
  Wf.sends_ok ins t → Forall (λ e, is_send e = false) es →
  Wf.sends_ok ins (t ++ es).
Proof.
  intros H Hq h jid m [He|He]%elem_of_app; [eauto|].
  rewrite Forall_forall in Hq. by apply Hq in He.
Qed.

Lemma wweb_ok_mono ins i st : Wf.wweb_ok ins st → Wf.wweb_ok (ins ++ [i]) st.
Proof.
  intros (H1 & H2 & H3). split; [done|]. split; [by apply infos_mono|].
  by apply sends_mono.
Qed.

Lemma tail_effects_quiet id o dirs :
  Forall (λ e, is_send e = false) (Closed.tail_effects id o dirs).
Proof.
  unfold Closed.tail_effects. case_bool_decide; repeat constructor.
Qed.

Lemma tail_wweb_ok ins id o st :
  Wf.wweb_ok ins st → Wf.wweb_ok ins (WWeb.cleanup_tail id o st).
Proof.
  intros (H1 & H2 & H3). unfold Wf.wweb_ok.
  destruct (wweb_tail_maps id o st) as (-> & _ & -> & ->).
  rewrite wweb_tail_trace. split; [|split; [done|]].
  - by apply registry_insert_status, registry_delete_client.
  - apply sends_app_quiet; [done|apply tail_effects_quiet].
Qed.

Lemma emit_wweb_ok ins es st :
  Forall (λ e, is_send e = false) es →
  Wf.wweb_ok ins st → Wf.wweb_ok ins (WWeb.emit es st).
Proof.
  intros Hq (H1 & H2 & H3). split; [done|]. split; [done|].
  by apply sends_app_quiet.
Qed.

Lemma cleanup_step_wweb_ok ins id o pc st :
  Wf.wweb_ok ins st → Wf.wweb_ok ins (fst (WWeb.cleanup_step id o pc st)).
Proof.
  intros H. destruct pc; cbn [WWeb.cleanup_step fst]; try done.
  - destruct (WWeb.whatsappClients st !! id); cbn [fst];
      [apply emit_wweb_ok; [repeat constructor|done]|by apply tail_wweb_ok].
  - destruct (WWeb.logout_ok o);
      repeat (apply emit_wweb_ok; [repeat constructor|]); done.
  - apply emit_wweb_ok; [repeat constructor|done].
  - apply emit_wweb_ok; [repeat constructor|done].
  - by apply tail_wweb_ok.
Qed.

Lemma step_caller_wweb_ok ins t st :
  Wf.wweb_ok ins st → Wf.wweb_ok ins (fst (fst (WWeb.step_caller t st))).
Proof.
  intros H. unfold WWeb.step_caller.
  destruct t as [og id o pc]. cbn [WWeb.t_pc WWeb.t_origin WWeb.t_id WWeb.t_out].
  assert (Hs : ∀ s pc', Wf.wweb_ok ins s →
     Wf.wweb_ok ins (fst (WWeb.cleanup_step id o pc' s)))
    by (intros; by apply cleanup_step_wweb_ok).
  assert (He : ∀ es s, Forall (λ e, is_send e = false) es →
     Wf.wweb_ok ins s → Wf.wweb_ok ins (WWeb.emit es s))
    by (intros; by apply emit_wweb_ok).
  destruct pc; [| | | | |done].
  all: destruct og; cbn [WWeb.is_start].
  all: match goal with
       | |- context [WWeb.cleanup_step ?i0 ?o0 ?pc ?s] =>
           specialize (Hs s pc);
           destruct (WWeb.cleanup_step i0 o0 pc s) as [s' pc'] eqn:E
       end.
  all: cbn [fst snd] in *.
  all: try (destruct (WWeb.is_done pc')); cbn [fst snd].
  all: unfold WWeb.notifyPhpBackend.
  all: repeat (apply He; [repeat constructor|]).
  all: apply Hs; try done.
  all: apply He; [repeat constructor|done].
Qed.

Lemma spawn_wweb_ok ins og id o s :
  Wf.wweb_ok ins (WWeb.store s) →
  Wf.wweb_ok ins (WWeb.store (WWeb.spawn og id o s)).
Proof.
  intros H. unfold WWeb.spawn.
  pose proof (step_caller_wweb_ok ins (WWeb.mkCaller og id o WWeb.CStart) _ H) as H'.
  by destruct (WWeb.step_caller _ _) as [[st t] r].
Qed.

Lemma connect_wweb_ok ins a st :
  Wf.wweb_ok ins st → Wf.wweb_ok ins (fst (WWeb.connect a st)).
Proof.
  intros (H1 & H2 & H3). unfold WWeb.connect.
  destruct (js_truthy a); cbn [negb]; [|done]. cbv zeta.
  destruct (WWeb.client_info (js_String a) st); [done|].
  split; [|split]; simpl.
  - by apply registry_connect.
  - intros h c u [[_ Hc]|[_ <-]]%lookup_snoc_Some Hu; [eauto|done].
  - rewrite <- app_assoc. apply sends_app_quiet; [done|repeat constructor].
Qed.

Lemma send_wweb_ok ins a p m ok st :
  Wf.wweb_ok ins st → Wf.wweb_ok ins (fst (WWeb.send a p m ok st)).
Proof.
  intros (H1 & H2 & H3). unfold WWeb.send. cbv zeta.
  destruct (_ || _); [done|].
  destruct (WWeb.whatsappClients st !! js_String a) as [h|] eqn:Eh; [|done].
  destruct (WWeb.objects st !! h ≫= WWeb.info) as [u|] eqn:Eu; [|done].
  assert (Hok : Wf.wweb_ok ins
    (WWeb.emit [ESendMessage h (strip_non_digits (js_String p) +:+ "@c.us")
                  (js_String m)] st)).
  { split; [done|]. split; [done|]. simpl.
    intros h' jid m' [He|He]%elem_of_app; [eauto|].
    apply list_elem_of_singleton in He. injection He as -> _ _.
    destruct (WWeb.objects st !! h) as [c|] eqn:Ec; [|done]. simpl in Eu.
    exists u. eauto. }
  by destruct ok.
Qed.

Lemma on_qr_wweb_ok toDataURL ins h q st :
  Wf.wweb_ok ins st → Wf.wweb_ok ins (WWeb.on_qr toDataURL h q st).
Proof.
  intros H. unfold WWeb.on_qr. destruct (WWeb.objects st !! h); [|done].
  cbv zeta. destruct (toDataURL q).
  - apply emit_wweb_ok; [repeat constructor|].
    destruct H as (H1 & H2 & H3). split; [done|]. split; [done|].
    simpl. apply sends_app_quiet; [done|repeat constructor].
  - repeat (apply emit_wweb_ok; [repeat constructor|]). done.
Qed.

Lemma on_ready_wweb_ok ins h u st :
  Wf.wweb_ok ins st →
  Wf.wweb_ok (ins ++ [WWeb.EvReady h u]) (WWeb.on_ready h u st).
Proof.
  intros H. apply (wweb_ok_mono _ (WWeb.EvReady h u)) in H.
  destruct H as (H1 & H2 & H3).
  unfold WWeb.on_ready. destruct (WWeb.objects st !! h) as [c|] eqn:Ec; [|done].
  split; [|split]; simpl.
  - by apply registry_insert_status, registry_set_info.
  - intros h' c' u' Hc Hu. destruct (decide (h = h')) as [->|Hne].
    + rewrite list_lookup_alter_eq, Ec in Hc. injection Hc as <-.
      simpl in Hu. injection Hu as <-. apply elem_of_app. right.
      by apply list_elem_of_singleton.
    + rewrite list_lookup_alter_ne in Hc by done. eauto.
  - apply sends_app_quiet; [done|repeat constructor].
Qed.

Lemma on_authenticated_wweb_ok ins h st :
  Wf.wweb_ok ins st → Wf.wweb_ok ins (WWeb.on_authenticated h st).
Proof.
  intros (H1 & H2 & H3). unfold WWeb.on_authenticated.
  destruct (WWeb.objects st !! h); [|done].
  split; [|done]. simpl. by apply registry_insert_status.
Qed.

Lemma sys_step_wweb_ok toDataURL ins i s :
  Wf.wweb_ok ins (WWeb.store s) →
  Wf.wweb_ok (ins ++ [i]) (WWeb.store (WWeb.sys_step toDataURL i s)).
Proof.
  intros H0. pose proof (wweb_ok_mono _ i _ H0) as H. destruct i; simpl.
  - pose proof (connect_wweb_ok _ account_id _ H).
    by destruct (WWeb.connect account_id (WWeb.store s)).
  - done.
  - rename select bool into sok.
    pose proof (send_wweb_ok _ account_id phone_no message sok _ H).
    by destruct (WWeb.send _ _ _ _ _).
  - destruct (js_truthy account_id); cbn [negb]; [by apply spawn_wweb_ok|done].
  - by apply on_qr_wweb_ok.
  - by apply on_ready_wweb_ok.
  - by apply on_authenticated_wweb_ok.
  - destruct (WWeb.objects (WWeb.store s) !! h); [by apply spawn_wweb_ok|done].
  - destruct (WWeb.objects (WWeb.store s) !! h); [by apply spawn_wweb_ok|done].
  - destruct (WWeb.objects (WWeb.store s) !! h); [|done]. done.
  - destruct (WWeb.callers s !! i) as [t|]; [|done].
    pose proof (step_caller_wweb_ok _ t _ H).
    by destruct (WWeb.step_caller t (WWeb.store s)) as [[st t'] r].
Qed.

Lemma run_wweb_ok toDataURL ins :
  Wf.wweb_ok ins (WWeb.store (WWeb.run toDataURL ins WWeb.boot)).
Proof.
  induction ins as [|i ins IH] using rev_ind.
  - split; [|split].
    + intros id h Hl. cbn in Hl. by rewrite lookup_empty in Hl.
    + intros h c u Hc. cbn in Hc. by rewrite lookup_nil in Hc.
    + intros h jid m He. cbn in He. by apply not_elem_of_nil in He.
  - unfold WWeb.run. rewrite foldl_snoc. by apply sys_step_wweb_ok.
Qed.

(** X12: in server.js's whatsapp-web.js build, whatever requests, transport
    events and resumed cleanups the process has seen, an account that is in
    the client map points to a client object that was constructed for that
    very account, and has a record in the status map. *)
Theorem X12_registered_client_belongs_to_its_account
    (toDataURL : string → option string) (ins : list WWeb.input)
    (id : string) (h : handle) :
  let st := WWeb.store (WWeb.run toDataURL ins WWeb.boot) in
  WWeb.whatsappClients st !! id = Some h →
  (∃ c, WWeb.objects st !! h = Some c ∧ WWeb.owner c = id)
  ∧ is_Some (WWeb.connectionStatus st !! id).
Proof.
  intros st Hl. destruct (run_wweb_ok toDataURL ins) as (H & _). by apply H.
Qed.

Lemma X12_registered_client_belongs_to_its_account_witness :
  let ins := [WWeb.ReqConnect (Some "acct1"); WWeb.ReqConnect (Some "acct2");
              WWeb.ReqConnect (Some "acct1")] in
  let st := WWeb.store (WWeb.run Sample.toDataURL ins WWeb.boot) in
  WWeb.whatsappClients st !! "acct1" = Some 2
  ∧ ∃ c, WWeb.objects st !! 2 = Some c ∧ WWeb.owner c = "acct1".
Proof.
  intros ins st. split; [reflexivity|].
  by destruct (X12_registered_client_belongs_to_its_account
                 Sample.toDataURL ins "acct1" 2 eq_refl) as [H _].
Defined.

(** X13: in server.js's whatsapp-web.js build the guard of send and the
    [connected] flag of the status route read [client.info], which the
    library writes, and not the status record that the 'ready' handler
    writes.  For the registered client of an account: once [info] is set,
    whether or not 'ready' was delivered, the status route says connected
    with the user of [info] as phone, and a send calls [sendMessage] on that
    client; as long as [info] is not set, even after the 'ready' handler ran
    and recorded [connected: true], the status route says not connected and
    a send is refused with 400 and without a call of the transport. *)
Theorem X13_connected_follows_client_info
    (st : WWeb.state) (h : handle) (c : WWeb.client) (p m : string)
    (ok : bool) :
  WWeb.objects st !! h = Some c →
  WWeb.whatsappClients st !! WWeb.owner c = Some h →
  WWeb.owner c ≠ "" → p ≠ "" → m ≠ "" →
  let id := Some (WWeb.owner c) in
  (∀ user, WWeb.info c = Some user →
     (∃ qr a, WWeb.get_status id st = ok_json (BStatus qr true a (Some user)))
     ∧ WWeb.trace (fst (WWeb.send id (Some p) (Some m) ok st))
       = WWeb.trace st ++ [ESendMessage h (strip_non_digits p +:+ "@c.us") m])
  ∧ (WWeb.info c = None →
     let st' := Gateway.ready_delivered h st in
     WWeb.connectionStatus st' !! WWeb.owner c = Some (mkStatus true None false)
     ∧ WWeb.get_status id st' = ok_json (BStatus None false false None)
     ∧ WWeb.send id (Some p) (Some m) ok st'
       = (st', bad_request "WhatsApp not connected")).
Proof.
  intros Hc Hreg Hid Hp Hm. cbv zeta.
  assert (Ht : js_truthy (Some (WWeb.owner c)) = true)
    by (destruct (WWeb.owner c); done).
  assert (Htp : js_truthy (Some p) = true) by (destruct p; done).
  assert (Htm : js_truthy (Some m) = true) by (destruct m; done).
  split.
  - intros user Hi. split.
    + unfold WWeb.get_status, WWeb.client_info. rewrite Ht. cbv zeta.
      cbn [negb js_String]. rewrite Hreg. simpl. rewrite Hc. simpl. rewrite Hi.
      eauto.
    + unfold WWeb.send. rewrite Ht, Htp, Htm. cbv zeta.
      cbn [negb orb js_String]. rewrite Hreg, Hc. simpl. rewrite Hi.
      by destruct ok.
  - intros Hi. unfold Gateway.ready_delivered. rewrite Hc. cbv zeta.
    rewrite Hi. split; [|split].
    + simpl. by rewrite lookup_insert_eq.
    + unfold WWeb.get_status, WWeb.client_info. rewrite Ht. cbv zeta.
      cbn [negb js_String]. simpl. rewrite Hreg. simpl. rewrite Hc. simpl.
      rewrite Hi. by rewrite lookup_delete_eq, lookup_insert_eq.
    + unfold WWeb.send. rewrite Ht, Htp, Htm. cbv zeta.
      cbn [negb orb js_String]. simpl. rewrite Hreg, Hc. simpl. by rewrite Hi.
Qed.

Lemma X13_connected_follows_client_info_witness :
  let st := fst (WWeb.connect (Some "acct1") WWeb.init) in
  let st' := Gateway.ready_delivered 0 st in
  WWeb.get_status (Some "acct1") st' = ok_json (BStatus None false false None)
  ∧ WWeb.send (Some "acct1") (Some "1555") (Some "hi") true st'
    = (st', bad_request "WhatsApp not connected").
Proof.
  intros st st'.
  destruct (X13_connected_follows_client_info st 0
              (WWeb.mkClient "acct1" None) "1555" "hi" true) as [_ H];
    [reflexivity|reflexivity|discriminate|discriminate|discriminate|].
  destruct (H eq_refl) as (_ & H1 & H2). by split.
Defined.

(** ** One account's teardown and the others *)

(** X14: a disconnect request of server.js's whatsapp-web.js build leaves
    the in-memory records of every other account id as they were: for every
    answer of the transport and of the file system, the client, QR and status
    entries of any other account id are unchanged, no transport object is
    changed, and the status route answers for the other id as before.  The
    statement is about the maps only.  It does not cover the credential
    directories: the directory that [cleanup] removes is computed from the
    unchecked id by [path.join], so an id with path separators can name the
    directory of another account. *)
Theorem X14_disconnect_leaves_other_accounts_alone
    (st : WWeb.state) (account_id : option string) (o : WWeb.outcomes)
    (other : string) :
  other ≠ js_String account_id →
  let st' := fst (WWeb.disconnect account_id o st) in
  WWeb.whatsappClients st' !! other = WWeb.whatsappClients st !! other
  ∧ WWeb.qrCodes st' !! other = WWeb.qrCodes st !! other
  ∧ WWeb.connectionStatus st' !! other = WWeb.connectionStatus st !! other
  ∧ WWeb.objects st' = WWeb.objects st
  ∧ WWeb.get_status (Some other) st' = WWeb.get_status (Some other) st.
Proof.
  intros Hne. cbv zeta.
  assert (H : WWeb.whatsappClients (fst (WWeb.disconnect account_id o st)) !! other
              = WWeb.whatsappClients st !! other
            ∧ WWeb.qrCodes (fst (WWeb.disconnect account_id o st)) !! other
              = WWeb.qrCodes st !! other
            ∧ WWeb.connectionStatus (fst (WWeb.disconnect account_id o st)) !! other
              = WWeb.connectionStatus st !! other
            ∧ WWeb.objects (fst (WWeb.disconnect account_id o st)) = WWeb.objects st).
  { unfold WWeb.disconnect. destruct (js_truthy account_id); cbn [negb]; [|done].
    cbv zeta. cbn [fst]. unfold WWeb.notifyPhpBackend.
    cbn [WWeb.emit WWeb.whatsappClients WWeb.qrCodes WWeb.connectionStatus WWeb.objects].
    match goal with
    | |- context [WWeb.cleanup ?i ?oo ?s] =>
        destruct (wweb_cleanup_maps i oo s) as (-> & -> & -> & ->)
    end.
    cbn [WWeb.emit WWeb.whatsappClients WWeb.qrCodes WWeb.connectionStatus WWeb.objects].
    rewrite !lookup_delete_ne, lookup_insert_ne by done. done. }
  destruct H as (Hc & Hq & Hs & Ho). repeat split; try done.
  unfold WWeb.get_status, WWeb.client_info. cbv zeta. cbn [js_String].
  by rewrite Hc, Hq, Hs, Ho.
Qed.

Lemma X14_disconnect_leaves_other_accounts_alone_witness :
  let st := WWeb.store
              (WWeb.run Sample.toDataURL
                 [WWeb.ReqConnect (Some "acct2"); WWeb.EvQr 1 "2@raw"]
                 Sample.registered) in
  WWeb.get_status (Some "acct2")
    (fst (WWeb.disconnect (Some "acct1") Sample.all_ok st))
  = ok_json (BStatus (Some "data:image/png;base64,2@raw") false false None).
Proof.
  intros st.
  destruct (X14_disconnect_leaves_other_accounts_alone st (Some "acct1")
              Sample.all_ok "acct2") as (_ & _ & _ & _ & H); [discriminate|].
  rewrite H. reflexivity.
Defined.

(** ** The status route of the unnamed source's whatsapp-web.js build *)

(** X15: that status route never reports a connected account: when the
    status record says connected, or the registered client is ready, the
    assignment to the constant [qr] throws and the route answers 500; so
    every 200 answer says [connected: false]. *)
Theorem X15_old_status_fails_once_connected
    (st : WWeb.state) (account_id : option string) :
  js_truthy account_id = true →
  let id := js_String account_id in
  let r := snd (WWebOld.get_status account_id st) in
  ((connected (default default_status (WWeb.connectionStatus st !! id)) = true
    ∨ is_Some (WWeb.client_info id st)) →
   r = server_error "Failed to get status")
  ∧ (code r = 200%Z → ∃ qr ph, payload r = BStatus qr false false ph).
Proof.
  intros Ha. cbv zeta. unfold WWebOld.get_status, WWeb.client_info. rewrite Ha.
  cbv zeta. cbn [negb].
  destruct (connected (default default_status
              (WWeb.connectionStatus st !! js_String account_id))) eqn:Ec.
  - split; [done|]. simpl. discriminate.
  - destruct (WWeb.whatsappClients st !! js_String account_id) as [h|]; simpl.
    + destruct (WWeb.objects st !! h ≫= WWeb.info) as [u|]; simpl.
      * split; [done|discriminate].
      * split; [by intros [?|[? ?]]|eauto].
    + split; [by intros [?|[? ?]]|eauto].
Qed.

Lemma X15_old_status_fails_once_connected_witness :
  let st := WWeb.on_ready 0 "15551234567" (fst (WWeb.connect (Some "acct1") WWeb.init)) in
  snd (WWebOld.get_status (Some "acct1") st) = server_error "Failed to get status".
Proof.
  intros st.
  destruct (X15_old_status_fails_once_connected st (Some "acct1")) as [H _];
    [reflexivity|].
  apply H. left. reflexivity.
Defined.

(** ** What the status route of server.js shows after an event *)

(** X16: what the status route of server.js shows around 'qr' and 'ready',
    for the registered client of an account.  The 'qr' handler suspends on
    the renderer, so its write to the QR map can come after a 'ready'.  A
    payload rendered to a non-empty string while the client has no [info] is
    served with [connected: false].  For a client with [info]: when the
    rendering is finished before 'ready', the status route after 'ready'
    serves no QR code and says connected with the user of [info] as phone;
    when 'ready' comes between the delivery of the payload and the end of
    the rendering, the QR code is stored after the 'ready' handler deleted
    it, and the status route serves it together with [connected: true]. *)
Theorem X16_status_follows_qr_and_ready
    (st : WWeb.state) (h : handle) (c : WWeb.client) (qr url : string) :
  WWeb.objects st !! h = Some c →
  WWeb.whatsappClients st !! WWeb.owner c = Some h →
  WWeb.owner c ≠ "" →
  url ≠ "" →
  let id := WWeb.owner c in
  let waiting := fst (Gateway.qr_delivered h qr st) in
  snd (Gateway.qr_delivered h qr st) = [(id, qr)]
  ∧ (WWeb.info c = None →
     ∃ a ph, WWeb.get_status (Some id)
               (Gateway.qr_rendered id (Some url) waiting)
             = ok_json (BStatus (Some url) false a ph))
  ∧ (∀ user, WWeb.info c = Some user →
     WWeb.get_status (Some id)
       (Gateway.ready_delivered h (Gateway.qr_rendered id (Some url) waiting))
     = ok_json (BStatus None true false (Some user))
     ∧ WWeb.get_status (Some id)
         (Gateway.qr_rendered id (Some url) (Gateway.ready_delivered h waiting))
       = ok_json (BStatus (Some url) true false (Some user))).
Proof.
  intros Hc Hreg Hid Hu. cbv zeta.
  assert (Ht : js_truthy (Some (WWeb.owner c)) = true)
    by (destruct (WWeb.owner c); done).
  assert (Hn : or_null url = Some url) by (destruct url; done).
  unfold Gateway.qr_delivered. rewrite Hc. cbn [fst snd].
  split; [done|]. split.
  - intros Hi. unfold WWeb.get_status, WWeb.client_info. rewrite Ht.
    cbv zeta. cbn [negb js_String]. simpl. rewrite Hreg. simpl. rewrite Hc.
    simpl. rewrite Hi. rewrite lookup_insert_eq. simpl. rewrite Hn. eauto.
  - intros user Hi. split.
    + unfold WWeb.get_status, WWeb.client_info. rewrite Ht.
      cbv zeta. cbn [negb js_String]. unfold Gateway.ready_delivered. simpl.
      rewrite Hc. simpl. rewrite Hreg. simpl. rewrite Hc. simpl. rewrite Hi.
      by rewrite lookup_delete_eq, lookup_insert_eq.
    + unfold WWeb.get_status, WWeb.client_info. rewrite Ht.
      cbv zeta. cbn [negb js_String]. unfold Gateway.ready_delivered. simpl.
      rewrite Hc. simpl. rewrite Hreg. simpl. rewrite Hc. simpl. rewrite Hi.
      rewrite !lookup_insert_eq. simpl. by rewrite Hn.
Qed.

Lemma X16_status_follows_qr_and_ready_witness :
  let st := WWeb.set_info 0 (Some "15551234567")
              (fst (WWeb.connect (Some "acct1") WWeb.init)) in
  let waiting := fst (Gateway.qr_delivered 0 "2@raw" st) in
  WWeb.get_status (Some "acct1")
    (Gateway.qr_rendered "acct1" (Sample.toDataURL "2@raw")
       (Gateway.ready_delivered 0 waiting))
  = ok_json (BStatus (Some "data:image/png;base64,2@raw") true false
               (Some "15551234567")).
Proof.
  intros st waiting.
  destruct (X16_status_follows_qr_and_ready st 0
              (WWeb.mkClient "acct1" (Some "15551234567")) "2@raw"
              "data:image/png;base64,2@raw") as (_ & _ & H);
    [reflexivity|reflexivity|discriminate|discriminate|].
  destruct (H "15551234567" eq_refl) as [_ H2]. exact H2.
Defined.

(** X17: an 'authenticated' event that arrives after 'ready' is not ignored:
    the status route then says [authenticating: true] together with
    [connected: true]; a 'ready' that arrives after 'authenticated' clears
    the flag. *)
Theorem X17_late_authenticated_sets_the_flag
    (st : WWeb.state) (h : handle) (c : WWeb.client) (user : string) :
  WWeb.objects st !! h = Some c →
  WWeb.whatsappClients st !! WWeb.owner c = Some h →
  WWeb.owner c ≠ "" →
  WWeb.get_status (Some (WWeb.owner c))
    (WWeb.on_authenticated h (WWeb.on_ready h user st))
  = ok_json (BStatus None true true (Some user))
  ∧ WWeb.get_status (Some (WWeb.owner c))
      (WWeb.on_ready h user (WWeb.on_authenticated h st))
    = ok_json (BStatus None true false (Some user)).
Proof.
  intros Hc Hreg Hid.
  assert (Ht : js_truthy (Some (WWeb.owner c)) = true)
    by (destruct (WWeb.owner c); done).
  split.
  - unfold WWeb.get_status, WWeb.client_info. rewrite Ht.
    cbv zeta. cbn [negb js_String].
    unfold WWeb.on_authenticated, WWeb.on_ready. rewrite Hc. simpl.
    rewrite list_lookup_alter_eq, Hc. simpl.
    rewrite Hreg. simpl. rewrite list_lookup_alter_eq, Hc. simpl.
    rewrite !lookup_insert_eq. simpl. by rewrite lookup_delete_eq.
  - unfold WWeb.get_status, WWeb.client_info. rewrite Ht.
    cbv zeta. cbn [negb js_String].
    unfold WWeb.on_ready, WWeb.on_authenticated. rewrite Hc. simpl.
    rewrite Hc. simpl. rewrite Hreg. simpl.
    rewrite list_lookup_alter_eq, Hc. simpl.
    by rewrite lookup_delete_eq, lookup_insert_eq.
Qed.

Lemma X17_late_authenticated_sets_the_flag_witness :
  let st := fst (WWeb.connect (Some "acct1") WWeb.init) in
  WWeb.get_status (Some "acct1")
    (WWeb.on_authenticated 0 (WWeb.on_ready 0 "15551234567" st))
  = ok_json (BStatus None true true (Some "15551234567")).
Proof.
  intros st.
  destruct (X17_late_authenticated_sets_the_flag st 0
              (WWeb.mkClient "acct1" None) "15551234567") as [H _];
    [reflexivity|reflexivity|discriminate|].
  exact H.
Defined.

(** ** The Baileys builds over every run *)

Lemma timers_quiet b tm t es :
  Wf.timers_ok b tm t → Forall (λ e, is_timer e = false) es →
  Wf.timers_ok b tm (t ++ es).
Proof.
  intros (H1 & H2 & H3) Hq. rewrite Forall_forall in Hq.
  split; [done|]. split.
  - intros ms id [He|He]%elem_of_app; [eauto|]. by apply Hq in He.
  - intros Hb. destruct (H3 Hb) as [Ht Hn]. split; [done|].
    intros ms id [He|He]%elem_of_app; [by eapply Hn|]. by apply Hq in He.
Qed.

Lemma sessions_insert_status_irrelevant sessions socks id :
  Wf.sessions_ok sessions socks → Wf.sessions_ok (delete id sessions) socks.
Proof. intros H id' h [_ Hl]%lookup_delete_Some. by apply H. Qed.

Lemma sessions_set_user sessions socks h u :
  Wf.sessions_ok sessions socks →
  Wf.sessions_ok sessions (alter (λ c, Baileys.mkSocket (Baileys.owner c) u) h socks).
Proof.
  intros H id' h' Hl. destruct (H id' h' Hl) as (c & Hc & Ho).
  destruct (decide (h = h')) as [->|Hne].
  - exists (Baileys.mkSocket (Baileys.owner c) u).
    by rewrite list_lookup_alter_eq, Hc.
  - exists c. by rewrite list_lookup_alter_ne.
Qed.

Lemma sessions_start sessions socks id :
  Wf.sessions_ok sessions socks →
  Wf.sessions_ok (<[id:=length socks]> sessions)
    (socks ++ [Baileys.mkSocket id None]).
Proof.
  intros H id' h Hl. destruct (decide (id = id')) as [->|Hne].
  - rewrite lookup_insert_eq in Hl. injection Hl as <-.
    exists (Baileys.mkSocket id' None). split; [|done].
    rewrite lookup_app_r by done. by rewrite Nat.sub_diag.
  - rewrite lookup_insert_ne in Hl by done.
    destruct (H id' h Hl) as (c & Hc & Ho).
    exists c. split; [|done]. by apply lookup_app_l_Some.
Qed.

Lemma phones_insert statuses id s :
  Wf.phones_ok statuses →
  (connected s = true → ∃ p, phone s = Some p ∧ Text.has_char ":" p = false) →
  Wf.phones_ok (<[id:=s]> statuses).
Proof.
  intros H Hs id' s' Hl Hc. destruct (decide (id = id')) as [->|Hne].
  - rewrite lookup_insert_eq in Hl. injection Hl as <-. by apply Hs.
  - rewrite lookup_insert_ne in Hl by done. eauto.
Qed.

Lemma startSession_baileys_ok b id ok st out :
  Wf.baileys_ok b (st, out) →
  Wf.baileys_ok b (fst (Baileys.startSession id ok st), out).
Proof.
  intros (H1 & H2 & H3 & H4). unfold Baileys.startSession.
  destruct ok; [|done]. split; [|split; [|split]]; cbn in *; try done.
  - by apply sessions_start.
  - apply timers_quiet; [done|repeat constructor].
Qed.

Lemma on_qr_baileys_ok toDataURL b id u st out :
  Wf.baileys_ok b (st, out) →
  Wf.baileys_ok b (Baileys.on_qr toDataURL id u st, out).
Proof.
  intros (H1 & H2 & H3 & H4). unfold Baileys.on_qr.
  destruct (js_truthy (Baileys.u_qr u)); [|done]. cbv zeta.
  destruct (toDataURL _); (split; [|split; [|split]]); cbn in *; try done.
  all: rewrite <- ?app_assoc; apply timers_quiet; [done|repeat constructor].
Qed.

Lemma on_close_baileys_ok loggedOut b id u st out :
  Wf.baileys_ok b (st, out) →
  Wf.baileys_ok b (Baileys.on_close loggedOut b id u st, out).
Proof.
  intros (H1 & H2 & H3 & H4). unfold Baileys.on_close. cbv zeta.
  assert (Hp : Wf.phones_ok (<[id:=default_status]> (Baileys.connectionStatus st)))
    by (apply phones_insert; [done|done]).
  destruct (Baileys.shouldReconnect loggedOut u).
  - destruct b; (split; [|split; [|split]]); cbn in *; try done.
    destruct H3 as (Ha & Hb & _). split; [|split; [|done]].
    + intros ms i [He|He]%elem_of_app; [eauto|].
      apply list_elem_of_singleton in He. by injection He as -> _.
    + rewrite <- app_assoc.
      intros ms i [He|He]%elem_of_app; [eauto|].
      apply elem_of_cons in He as [He|He]; [done|].
      apply list_elem_of_singleton in He. by injection He as -> _.
  - split; [|split; [|split]]; cbn in *; try done.
    + by apply sessions_insert_status_irrelevant.
    + rewrite <- app_assoc. apply timers_quiet; [done|repeat constructor].
Qed.

Lemma on_open_baileys_ok b h id st out :
  Wf.baileys_ok b (st, out) →
  Wf.baileys_ok b (Baileys.on_open h id st, out).
Proof.
  intros (H1 & H2 & H3 & H4). unfold Baileys.on_open. cbv zeta.
  cbn [Baileys.delete_qr Baileys.sockets].
  destruct (Baileys.sockets st !! h ≫= Baileys.user_id) as [uid|];
    (split; [|split; [|split]]); cbn in *; try done.
  - apply phones_insert; [done|]. intros _. eexists. split; [done|].
    apply before_char_no_sep.
  - apply timers_quiet; [done|repeat constructor].
Qed.

Lemma on_update_baileys_ok toDataURL loggedOut b h u st out :
  Wf.baileys_ok b (st, out) →
  Wf.baileys_ok b (Baileys.on_update toDataURL loggedOut b h u st, out).
Proof.
  intros H. unfold Baileys.on_update.
  destruct (Baileys.sockets st !! h) as [c|]; [|done]. cbv zeta.
  pose proof (on_qr_baileys_ok toDataURL b (Baileys.owner c) u st out H) as Hq.
  destruct (Baileys.u_connection u) as [[]|]; try done.
  - by apply on_close_baileys_ok.
  - by apply on_open_baileys_ok.
Qed.

Lemma already_connected_phone st id s :
  Wf.phones_ok (Baileys.connectionStatus st) →
  Baileys.already_connected id st = Some s →
  ∃ p, phone s = Some p ∧ Text.has_char ":" p = false.
Proof.
  intros Hp. unfold Baileys.already_connected.
  destruct (Baileys.sessions st !! id); [|done].
  destruct (Baileys.connectionStatus st !! id) as [s0|] eqn:E; [|done].
  destruct (connected s0) eqn:Ec; [|done]. intros [= <-]. eauto.
Qed.

Lemma get_status_has_phone a st :
  Wf.phones_ok (Baileys.connectionStatus st) →
  Wf.connected_has_phone (Baileys.get_status a st).
Proof.
  intros Hp. unfold Baileys.get_status.
  destruct (js_truthy a); cbn [negb]; [|done]. cbv zeta.
  unfold Wf.connected_has_phone. simpl.
  destruct (Baileys.connectionStatus st !! js_String a) as [s|] eqn:E; simpl;
    [|done].
  destruct (connected s) eqn:Ec; [|done]. eauto.
Qed.

Lemma sys_step_baileys_ok toDataURL loggedOut b i s :
  Wf.baileys_ok b s →
  Wf.baileys_ok b (Baileys.sys_step toDataURL loggedOut b i s).
Proof.
  destruct s as [st out]. intros H.
  pose proof H as (H1 & H2 & H3 & H4). cbn in H1, H2, H3, H4.
  destruct i as [a|a|a p m sok|a lok|h u|h uid|i|i ok]; cbn [Baileys.sys_step].
  - destruct (js_truthy a); cbn [negb].
    + destruct (Baileys.already_connected (js_String a) st) as [s|] eqn:E.
      * split; [done|]. split; [done|]. split; [done|]. cbn.
        apply Forall_app. split; [done|]. constructor; [|done].
        eapply already_connected_phone; eauto.
      * done.
    + split; [done|]. split; [done|]. split; [done|]. cbn.
      apply Forall_app. split; [done|]. by constructor.
  - split; [done|]. split; [done|]. split; [done|]. cbn.
    apply Forall_app. split; [done|]. constructor; [|done].
    by apply get_status_has_phone.
  - unfold Baileys.send. cbv zeta.
    destruct (_ || _);
      [split; [done|]; split; [done|]; split; [done|]; cbn;
       apply Forall_app; split; [done|]; by constructor|].
    destruct (Baileys.sessions st !! js_String a);
      [|split; [done|]; split; [done|]; split; [done|]; cbn;
        apply Forall_app; split; [done|]; by constructor].
    destruct sok; (split; [done|]; split; [done|]; split; cbn;
      [apply timers_quiet; [done|repeat constructor]|
       apply Forall_app; split; [done|]; by constructor]).
  - unfold Baileys.disconnect. cbv zeta.
    destruct (Baileys.sessions st !! js_String a); [destruct lok|].
    all: split; [|split; [|split]]; cbn; try done.
    all: try (by apply sessions_insert_status_irrelevant).
    all: try (rewrite <- ?app_assoc; apply timers_quiet; [done|repeat constructor]).
    all: apply Forall_app; split; [done|]; by constructor.
  - by apply on_update_baileys_ok.
  - split; [|split; [|split]]; cbn; try done. by apply sessions_set_user.
  - unfold Baileys.fire_timer.
    destruct (Baileys.timers st !! i) as [[ms id]|]; [|done].
    split; [|split; [|split]]; cbn; try done.
    destruct H3 as (Ha & Hb & Hc). split; [|split; [done|]].
    + intros ms' id' He%list_elem_of_delete_inv. eauto.
    + intros Hs. destruct (Hc Hs) as [-> Hn]. done.
  - unfold Baileys.finish_start.
    destruct (Baileys.starting st !! i) as [pd|]; [|
      split; [done|]; split; [done|]; split; [done|]; cbn; by rewrite app_nil_r].
    cbv zeta.
    pose proof (startSession_baileys_ok b (Baileys.p_id pd) ok
                  (Baileys.set_starting (delete i (Baileys.starting st)) st) out H)
      as (K1 & K2 & K3 & K4).
    destruct (Baileys.startSession _ _ _) as [st' r]. cbn in K1, K2, K3, K4.
    destruct (Baileys.p_route pd); [destruct r|];
      (split; [done|]; split; [done|]; split; [done|]; cbn).
    all: apply Forall_app; split; [done|]; by constructor.
Qed.

Lemma run_baileys_ok toDataURL loggedOut b ins :
  Wf.baileys_ok b (Baileys.run toDataURL loggedOut b ins (Baileys.init, [])).
Proof.
  induction ins as [|i ins IH] using rev_ind.
  - split; [|split; [|split]]; cbn.
    + intros id h Hl. by rewrite lookup_empty in Hl.
    + intros id s Hl. by rewrite lookup_empty in Hl.
    + split; [|split; [|split; [done|]]]; intros ms id He;
        by apply not_elem_of_nil in He.
    + constructor.
  - unfold Baileys.run. rewrite foldl_snoc. by apply sys_step_baileys_ok.
Qed.

(** X18: the delay of a retry never grows: over every run of a Baileys
    build, each pending retry timer and each timer ever set is for 5000 ms;
    server.js never sets one. *)
Theorem X18_retry_delay_is_always_5000
    (toDataURL : string → option string) (loggedOut : Z) (b : Baileys.build)
    (ins : list Baileys.input) :
  let st := fst (Baileys.run toDataURL loggedOut b ins (Baileys.init, [])) in
  (∀ ms id, (ms, id) ∈ Baileys.timers st → ms = 5000%Z)
  ∧ (∀ ms id, ESetTimeout ms id ∈ Baileys.trace st → ms = 5000%Z)
  ∧ (b = Baileys.ServerJs →
     Baileys.timers st = [] ∧ ∀ ms id, ESetTimeout ms id ∉ Baileys.trace st).
Proof.
  cbv zeta. by destruct (run_baileys_ok toDataURL loggedOut b ins) as (_ & _ & H & _).
Qed.

Lemma X18_retry_delay_is_always_5000_witness :
  let ins := [Baileys.ReqConnect (Some "acct1"); Baileys.StartGoesOn 0 true;
              Baileys.EvUpdate 0 (Sample.closed 428); Baileys.TimerFires 0;
              Baileys.StartGoesOn 0 true; Baileys.EvUpdate 1 (Sample.closed 515)] in
  let st := fst (Baileys.run Sample.toDataURL Sample.loggedOut Baileys.Part000 ins
                   (Baileys.init, [])) in
  Baileys.timers st = [(5000%Z, "acct1")]
  ∧ ∀ ms id, (ms, id) ∈ Baileys.timers st → ms = 5000%Z.
Proof.
  intros ins st. split; [reflexivity|].
  by destruct (X18_retry_delay_is_always_5000 Sample.toDataURL Sample.loggedOut
                 Baileys.Part000 ins) as [H _].
Defined.

(** X19: over every run of a Baileys build, a response that says connected
    (from the status route or from connect) carries a phone, and that phone
    has no ':'. *)
Theorem X19_connected_answer_has_phone
    (toDataURL : string → option string) (loggedOut : Z) (b : Baileys.build)
    (ins : list Baileys.input) (r : response) :
  r ∈ snd (Baileys.run toDataURL loggedOut b ins (Baileys.init, [])) →
  match payload r with
  | BStatus _ true _ ph | BConnected ph =>
      ∃ p, ph = Some p ∧ Text.has_char ":" p = false
  | _ => True
  end.
Proof.
  intros Hr. destruct (run_baileys_ok toDataURL loggedOut b ins) as (_ & _ & _ & H).
  rewrite Forall_forall in H. by apply H in Hr.
Qed.

Lemma X19_connected_answer_has_phone_witness :
  let ins := [Baileys.ReqConnect (Some "acct1"); Baileys.StartGoesOn 0 true;
              Baileys.EvUser 0 "15551234567:12@s.whatsapp.net";
              Baileys.EvUpdate 0 (Baileys.mkUpdate (Some Baileys.ConnOpen) None None);
              Baileys.ReqStatus (Some "acct1")] in
  ∃ p, Some "15551234567" = Some p ∧ Text.has_char ":" p = false.
Proof.
  intros ins.
  apply (X19_connected_answer_has_phone Sample.toDataURL Sample.loggedOut
           Baileys.Part000 ins
           (ok_json (BStatus None true false (Some "15551234567")))).
  vm_compute. apply list_elem_of_further, list_elem_of_here.
Defined.

(** X20: over every run of a Baileys build, an account in the session map
    points to a socket that was created for that very account, so the events
    of the registered socket act on the account it is registered for. *)
Theorem X20_registered_socket_belongs_to_its_account
    (toDataURL : string → option string) (loggedOut : Z) (b : Baileys.build)
    (ins : list Baileys.input) (id : string) (h : handle) :
  let st := fst (Baileys.run toDataURL loggedOut b ins (Baileys.init, [])) in
  Baileys.sessions st !! id = Some h →
  ∃ c, Baileys.sockets st !! h = Some c ∧ Baileys.owner c = id.
Proof.
  intros st Hl. destruct (run_baileys_ok toDataURL loggedOut b ins) as (H & _).
  by apply H.
Qed.

Lemma X20_registered_socket_belongs_to_its_account_witness :
  let ins := [Baileys.ReqConnect (Some "acct1"); Baileys.ReqConnect (Some "acct1");
              Baileys.StartGoesOn 0 true; Baileys.StartGoesOn 0 true] in
  let st := fst (Baileys.run Sample.toDataURL Sample.loggedOut Baileys.ServerJs ins
                   (Baileys.init, [])) in
  ∃ c, Baileys.sockets st !! 1 = Some c ∧ Baileys.owner c = "acct1".
Proof.
  intros ins st.
  by apply (X20_registered_socket_belongs_to_its_account Sample.toDataURL
              Sample.loggedOut Baileys.ServerJs ins "acct1" 1).
Defined.

(** ** disconnect and status in the Baileys builds *)

(** X21: the Baileys disconnect route never answers 400.  For an account
    without a session (also when [account_id] is missing, which is looked up
    as "undefined") it makes no transport call, still notifies the backend
    for that id, and answers success. *)
Theorem X21_baileys_disconnect_of_unknown_account_succeeds
    (st : Baileys.state) (account_id : option string) (logout_ok : bool) :
  code (snd (Baileys.disconnect account_id logout_ok st)) ≠ 400%Z
  ∧ (Baileys.sessions st !! js_String account_id = None →
     Baileys.disconnect account_id logout_ok st
     = (Baileys.emit [ENotify (js_String account_id) "disconnected" None] st,
        ok_json BSuccess))
  ∧ js_String None = "undefined".
Proof.
  unfold Baileys.disconnect. cbv zeta. split; [|split; [|done]].
  - destruct (Baileys.sessions st !! js_String account_id); [destruct logout_ok|];
      done.
  - by intros ->.
Qed.

Lemma X21_baileys_disconnect_of_unknown_account_succeeds_witness :
  Baileys.disconnect None true (Sample.handshake Baileys.ServerJs)
  = (Baileys.emit [ENotify "undefined" "disconnected" None]
       (Sample.handshake Baileys.ServerJs),
     ok_json BSuccess).
Proof.
  destruct (X21_baileys_disconnect_of_unknown_account_succeeds
              (Sample.handshake Baileys.ServerJs) None true) as (_ & H & _).
  apply H. reflexivity.
Defined.

(** X22: right after the close block of the handler ran for a registered
    account, the status route shows no QR code, not connected and no phone;
    [authenticating] is true exactly when the close is retried (the session
    is still registered) and false after a logged-out close. *)
Theorem X22_status_after_close
    (loggedOut : Z) (b : Baileys.build) (st : Baileys.state)
    (id : string) (h : handle) (u : Baileys.update) :
  id ≠ "" →
  Baileys.sessions st !! id = Some h →
  Baileys.get_status (Some id) (Baileys.on_close loggedOut b id u st)
  = ok_json (BStatus None false (Baileys.shouldReconnect loggedOut u) None).
Proof.
  intros Hid Hs.
  assert (Ht : js_truthy (Some id) = true) by (destruct id; done).
  unfold Baileys.get_status. rewrite Ht. cbv zeta. cbn [negb js_String].
  unfold Baileys.on_close. cbv zeta.
  destruct (Baileys.shouldReconnect loggedOut u); [destruct b|]; simpl;
    rewrite lookup_delete_eq, lookup_insert_eq; simpl.
  - rewrite Hs. by rewrite bool_decide_eq_true_2 by eauto.
  - rewrite Hs. by rewrite bool_decide_eq_true_2 by eauto.
  - rewrite lookup_delete_eq. done.
Qed.

Lemma X22_status_after_close_witness :
  Baileys.get_status (Some "acct1")
    (Baileys.on_close Sample.loggedOut Baileys.Part000 "acct1" (Sample.closed 428)
       (Sample.awaiting_scan Baileys.Part000))
  = ok_json (BStatus None false true None).
Proof.
  by rewrite (X22_status_after_close Sample.loggedOut Baileys.Part000
                (Sample.awaiting_scan Baileys.Part000) "acct1" 0 (Sample.closed 428)).
Defined.

(** X23: the Baileys disconnect route leaves the QR map and the status map
    alone: after it, whatever the logout answered, the status route shows the
    same QR code, the same [connected] and the same phone as before, so a
    connected account keeps reading as connected until a close event comes
    in. *)
Theorem X23_baileys_disconnect_keeps_status_record
    (st : Baileys.state) (account_id : option string) (logout_ok : bool) :
  js_truthy account_id = true →
  let st' := fst (Baileys.disconnect account_id logout_ok st) in
  Baileys.qrCodes st' = Baileys.qrCodes st
  ∧ Baileys.connectionStatus st' = Baileys.connectionStatus st
  ∧ ∃ qr c ph a a',
      Baileys.get_status account_id st = ok_json (BStatus qr c a ph)
      ∧ Baileys.get_status account_id st' = ok_json (BStatus qr c a' ph).
Proof.
  intros Ha. cbv zeta.
  assert (H : Baileys.qrCodes (fst (Baileys.disconnect account_id logout_ok st))
              = Baileys.qrCodes st
            ∧ Baileys.connectionStatus (fst (Baileys.disconnect account_id logout_ok st))
              = Baileys.connectionStatus st).
  { unfold Baileys.disconnect. cbv zeta.
    destruct (Baileys.sessions st !! js_String account_id); [destruct logout_ok|];
      done. }
  destruct H as [Hq Hs]. split; [done|]. split; [done|].
  unfold Baileys.get_status. rewrite Ha. cbv zeta. cbn [negb].
  rewrite Hq, Hs. eauto 10.
Qed.

Lemma X23_baileys_disconnect_keeps_status_record_witness :
  let st := Baileys.on_open 0 "acct1"
              (Baileys.set_user 0 (Some "15551234567:12@s.whatsapp.net")
                 (Sample.awaiting_scan Baileys.Part000)) in
  Baileys.connectionStatus (fst (Baileys.disconnect (Some "acct1") true st)) !! "acct1"
  = Some (mkStatus true (Some "15551234567") false).
Proof.
  intros st.
  destruct (X23_baileys_disconnect_keeps_status_record st (Some "acct1") true)
    as (_ & H & _); [reflexivity|].
  rewrite H. reflexivity.
Defined.

Lemma X7_groups_retry_is_bounded_witness :
  let st := WWeb.on_ready 0 "15551234567" (fst (WWeb.connect (Some "acct1") WWeb.init)) in
  let calls := snd (WWebQueries.get_groups (λ _, true)
                      (λ _, WWebQueries.ChatsThrow "Evaluation failed")
                      (Some "acct1") st) in
  calls = [WWebQueries.CGetChats; WWebQueries.CWait 1000; WWebQueries.CGetChats;
           WWebQueries.CWait 1000; WWebQueries.CGetChats]
  ∧ (length (List.filter WWebQueries.is_getChats calls) ≤ 3)%nat.
Proof.
  intros st calls. split; [reflexivity|].
  by destruct (X7_groups_retry_is_bounded (λ _, true)
                 (λ _, WWebQueries.ChatsThrow "Evaluation failed")
                 (Some "acct1") st) as [H _].
Defined.
